(** * AI Study Assistant: the Lambda handlers of [handler.py]

    A shallow embedding of the request handlers: Python values as an
    inductive type, the table store and the blob store as finite maps,
    every handler as a function from an event and a world to a response
    and a world.  What the handlers obtain from libraries and services
    (the JSON decoder, the PDF and DOCX readers, the model endpoint,
    identifiers, the clock) is an environment record [Env]; theorems
    hold for every environment. *)

From Stdlib Require Import ZArith String Ascii List Bool Lia.
From Stdlib.Strings Require Import Byte.
From Stdlib Require Import DecimalString.
From Stdlib Require PrimFloat FloatOps SpecFloat Uint63.
From stdpp Require Import base option list gmap strings sorting.
Import ListNotations.

Set Warnings "-register-all".

Local Open Scope string_scope.
Local Open Scope list_scope.
Local Open Scope Z_scope.

(** ** Python text

    A [str] is a [string] whose characters stand for the code points
    0..255; the operations below are Python's on that range. *)

Definition chars (s : string) : list ascii := list_ascii_of_string s.
Definition text (l : list ascii) : string := string_of_list_ascii l.

Definition newline : ascii := ascii_of_nat 10.
Definition backtick : ascii := ascii_of_nat 96.
Definition dot : ascii := ascii_of_nat 46.

(** [len(s)] *)
Definition len (s : string) : Z := Z.of_nat (String.length s).

(** [str.isspace] on one character: TAB..CR, FS..US, SPACE, NEL, NBSP. *)
Definition is_space (c : ascii) : bool :=
  let n := nat_of_ascii c in
  ((9 <=? n) && (n <=? 13))%nat || ((28 <=? n) && (n <=? 32))%nat
  || (n =? 133)%nat || (n =? 160)%nat.

Fixpoint lstrip_chars (l : list ascii) : list ascii :=
  match l with
  | c :: l' => if is_space c then lstrip_chars l' else l
  | [] => []
  end.

Definition rstrip_chars (l : list ascii) : list ascii :=
  rev (lstrip_chars (rev l)).

(** [s.strip()] *)
Definition strip (s : string) : string :=
  text (rstrip_chars (lstrip_chars (chars s))).

(** [s.lower()] *)
Definition lower_char (c : ascii) : ascii :=
  let n := nat_of_ascii c in
  if ((65 <=? n) && (n <=? 90))%nat
     || (((192 <=? n) && (n <=? 222))%nat && negb (n =? 215)%nat)
  then ascii_of_nat (n + 32) else c.

Definition lower (s : string) : string := text (map lower_char (chars s)).

(** [s.split(sep)] for a one-character separator. *)
Fixpoint split_chars (sep : ascii) (cur : list ascii) (l : list ascii)
  : list (list ascii) :=
  match l with
  | [] => [rev cur]
  | c :: l' =>
      if Ascii.eqb c sep then rev cur :: split_chars sep [] l'
      else split_chars sep (c :: cur) l'
  end.

Definition split (sep : ascii) (s : string) : list string :=
  map text (split_chars sep [] (chars s)).

(** [s[:k]]: a negative bound counts from the end. *)
Definition slice_to {A} (l : list A) (k : Z) : list A :=
  if 0 <=? k then firstn (Z.to_nat k) l
  else firstn (Z.to_nat (Z.of_nat (length l) + k)) l.

(** [s[k:]] for a bound that is not negative. *)
Definition slice_from {A} (l : list A) (k : nat) : list A := skipn k l.

Definition str_slice_to (s : string) (k : Z) : string :=
  text (slice_to (chars s) k).

Fixpoint is_prefix (p l : list ascii) : bool :=
  match p, l with
  | [], _ => true
  | c :: p', d :: l' => Ascii.eqb c d && is_prefix p' l'
  | _ :: _, [] => false
  end.

(** [s.startswith(p)] and [s.endswith(p)] *)
Definition startswith (p s : string) : bool := is_prefix (chars p) (chars s).

Definition endswith (p s : string) : bool :=
  is_prefix (rev (chars p)) (rev (chars s)).

(** ['\n'.join(parts)] *)
Fixpoint join_lines (parts : list string) : string :=
  match parts with
  | [] => ""
  | [p] => p
  | p :: rest => p +:+ String newline (join_lines rest)
  end.

(** [str(n)] for an integer. *)
Definition str_of_Z (z : Z) : string := NilZero.string_of_int (Z.to_int z).
Definition str_of_nat (n : nat) : string := str_of_Z (Z.of_nat n).

(** ** Python values

    The values that travel through the handlers: what [json.loads]
    produces, what the table store holds, what a response body is
    built from.  A [dict] keeps its keys in insertion order. *)

Abbreviation float := PrimFloat.float.

Inductive pyval : Type :=
| VNone
| VBool (b : bool)
| VInt (z : Z)
| VFloat (f : float)
| VStr (s : string)
| VList (l : list pyval)
| VDict (kv : list (string * pyval)).

Abbreviation dict := (list (string * pyval)).

Fixpoint dict_get (k : string) (d : dict) : option pyval :=
  match d with
  | [] => None
  | (k', v) :: d' => if String.eqb k k' then Some v else dict_get k d'
  end.

(** [d.get(k, default)] and [d.get(k)] on a dict *)
Definition item_get_or (item : dict) (k : string) (default : pyval) : pyval :=
  match dict_get k item with
  | Some v => v
  | None => default
  end.

Definition item_get (item : dict) (k : string) : pyval :=
  item_get_or item k VNone.

(** [d[k] = v]: an existing key keeps its place. *)
Fixpoint dict_set (k : string) (v : pyval) (d : dict) : dict :=
  match d with
  | [] => [(k, v)]
  | (k', v') :: d' =>
      if String.eqb k k' then (k, v) :: d' else (k', v') :: dict_set k v d'
  end.

Definition dict_keys (d : dict) : list string := map fst d.

(** [{k: v for k, v in d.items() if k != key}] *)
Definition dict_without (key : string) (d : dict) : dict :=
  List.filter (fun kv => negb (String.eqb (fst kv) key)) d.

(** An integer as a float, exact below 2^53. *)
Definition float_of_Z (z : Z) : float :=
  if 0 <=? z then PrimFloat.of_uint63 (Uint63.of_Z z)
  else PrimFloat.opp (PrimFloat.of_uint63 (Uint63.of_Z (- z))).

Definition float_of_nat (n : nat) : float := float_of_Z (Z.of_nat n).

(** [f == n] for a float and an integer: Python compares the exact values. *)
Definition float_eq_int (f : float) (n : Z) : bool :=
  match FloatOps.Prim2SF f with
  | SpecFloat.S754_zero _ => n =? 0
  | SpecFloat.S754_finite s m e =>
      let v := if s then - Z.pos m else Z.pos m in
      if 0 <=? e then n =? v * 2 ^ e
      else (Z.pos m mod 2 ^ (- e) =? 0) && (n =? v / 2 ^ (- e))
  | _ => false
  end.

Definition int_of_bool (b : bool) : Z := if b then 1 else 0.

(** [a == b] *)
Fixpoint py_eq (a b : pyval) {struct a} : bool :=
  match a, b with
  | VNone, VNone => true
  | VBool x, VBool y => Bool.eqb x y
  | VBool x, VInt n => int_of_bool x =? n
  | VBool x, VFloat f => float_eq_int f (int_of_bool x)
  | VInt m, VBool y => m =? int_of_bool y
  | VInt m, VInt n => m =? n
  | VInt m, VFloat f => float_eq_int f m
  | VFloat f, VBool y => float_eq_int f (int_of_bool y)
  | VFloat f, VInt n => float_eq_int f n
  | VFloat f, VFloat g => PrimFloat.eqb f g
  | VStr s, VStr t => String.eqb s t
  | VList l, VList l' =>
      (fix go (l l' : list pyval) : bool :=
         match l, l' with
         | [], [] => true
         | x :: l, y :: l' => py_eq x y && go l l'
         | _, _ => false
         end) l l'
  | VDict kv, VDict kv' =>
      (length kv =? length kv')%nat &&
      (fix all (kv : dict) : bool :=
         match kv with
         | [] => true
         | (k, v) :: kv =>
             match dict_get k kv' with
             | Some v' => py_eq v v'
             | None => false
             end && all kv
         end) kv
  | _, _ => false
  end.

(** [bool(v)] *)
Definition truthy (v : pyval) : bool :=
  match v with
  | VNone => false
  | VBool b => b
  | VInt z => negb (z =? 0)
  | VFloat f => negb (PrimFloat.eqb f (float_of_Z 0))
  | VStr s => negb (String.eqb s "")
  | VList l => match l with [] => false | _ => true end
  | VDict kv => match kv with [] => false | _ => true end
  end.

(** [a or b] *)
Definition py_or (a b : pyval) : pyval := if truthy a then a else b.

(** ** Exceptions and results *)

Inductive exn : Type :=
| KeyError (key : pyval)
| IndexError
| TypeError
| AttributeError
| ValueError (msg : string)
| JSONDecodeError
| UnicodeDecodeError
| ClientError
| RequestException
| Exception (msg : string).

Inductive result (A : Type) : Type :=
| Ok (a : A)
| Raise (e : exn).
Arguments Ok {A} a.
Arguments Raise {A} e.

Definition rbind {A B} (r : result A) (f : A -> result B) : result B :=
  match r with
  | Ok a => f a
  | Raise e => Raise e
  end.

Notation "'let!' x ':=' r 'in' k" := (rbind r (fun x => k))
  (at level 10, x name, r at level 100, k at level 200).

(** [v[k]] for a string key. *)
Definition getitem (v : pyval) (k : string) : result pyval :=
  match v with
  | VDict kv =>
      match dict_get k kv with
      | Some x => Ok x
      | None => Raise (KeyError (VStr k))
      end
  | _ => Raise TypeError
  end.

(** [v[i]] for an integer index that is not negative. *)
Definition getindex (v : pyval) (i : nat) : result pyval :=
  match v with
  | VList l =>
      match nth_error l i with
      | Some x => Ok x
      | None => Raise IndexError
      end
  | VStr s =>
      match String.get i s with
      | Some c => Ok (VStr (String c ""))
      | None => Raise IndexError
      end
  | VDict kv => Raise (KeyError (VInt (Z.of_nat i)))
  | _ => Raise TypeError
  end.

(** [v.get(k, default)] *)
Definition py_get (v : pyval) (k : string) (default : pyval) : result pyval :=
  match v with
  | VDict kv => Ok (item_get_or kv k default)
  | _ => Raise AttributeError
  end.

(** [len(v)] *)
Definition py_len (v : pyval) : result nat :=
  match v with
  | VStr s => Ok (String.length s)
  | VList l => Ok (length l)
  | VDict kv => Ok (length kv)
  | _ => Raise TypeError
  end.

(** [v[:k]] *)
Definition py_slice_to (v : pyval) (k : Z) : result pyval :=
  match v with
  | VStr s => Ok (VStr (str_slice_to s k))
  | VList l => Ok (VList (slice_to l k))
  | _ => Raise TypeError
  end.

(** What a [for] loop over [v] visits. *)
Definition py_iter (v : pyval) : result (list pyval) :=
  match v with
  | VList l => Ok l
  | VDict kv => Ok (map (fun k => VStr k) (dict_keys kv))
  | VStr s => Ok (map (fun c => VStr (String c "")) (chars s))
  | _ => Raise TypeError
  end.

(** ** The environment

    Libraries and services the handlers call, and the prompt templates
    (opaque text, rendered from their named parameters). *)

Abbreviation bytes := (list byte).

(** One page of a PDF: [page.extract_text()] gives text, gives [None],
    or raises. *)
Inductive page : Type :=
| PageText (t : string)
| PageNone
| PageRaises.

Record http_response : Type := {
  status_code : Z;
  response_json : result pyval;
  response_text : string
}.

Record Env : Type := {
  (** [json.loads] *)
  json_loads : string -> result pyval;
  (** [str(e)] of a caught exception *)
  str_exn : exn -> string;
  (** [str(v)] of a list, a dict or a float *)
  repr : pyval -> string;
  (** [uuid.uuid4()], by the number of identifiers drawn so far *)
  uuid4 : nat -> string;
  (** [datetime.utcnow().isoformat()], by the number of clock reads *)
  utcnow_isoformat : nat -> string;
  GEMINI_API_KEY : string;
  (** [requests.post(url, json=payload)], by the number of earlier calls *)
  requests_post : nat -> string -> pyval -> result http_response;
  (** [PyPDF2.PdfReader(BytesIO(content)).pages]; [None] when it raises *)
  pdf_pages : bytes -> option (list page);
  (** the paragraph texts of [docx.Document]; [None] when it raises *)
  docx_paragraphs : bytes -> option (list string);
  (** [content.decode('utf-8')]; [None] on invalid input *)
  decode_utf8 : bytes -> option string;
  (** [SUMMARIZE_PROMPT.format(content, language)] *)
  SUMMARIZE_PROMPT : string -> string -> string;
  (** [FLASHCARDS_PROMPT.format(content, num_cards, language)] *)
  FLASHCARDS_PROMPT : string -> string -> string -> string;
  (** [QUIZ_PROMPT.format(content, num_questions, language, difficulty)] *)
  QUIZ_PROMPT : string -> string -> string -> string -> string;
  (** [CHAT_SYSTEM_PROMPT.format(document_content)] *)
  CHAT_SYSTEM_PROMPT : string -> string;
  (** the user prompt of a chat turn, from the question and the language *)
  chat_user_prompt : string -> string -> string;
  (** [EXPLAIN_PROMPT.format(text, language)] *)
  EXPLAIN_PROMPT : string -> string -> string;
  (** the four entries of [level_instructions] *)
  level_eli5 : string;
  level_beginner : string;
  level_intermediate : string;
  level_expert : string
}.

(** ** PDF and file text extraction *)

(** [page.extract_text() or ""] *)
Definition page_extract_text (p : page) : option string :=
  match p with
  | PageText t => Some t
  | PageNone => Some ""
  | PageRaises => None
  end.

(** The page loop of [extract_text_from_pdf]; [None] when a page raises. *)
Fixpoint pdf_page_loop (pages : list page) (max_chars : Z)
    (extracted_text : list string) (total_chars : Z) : option (list string) :=
  match pages with
  | [] => Some extracted_text
  | p :: rest =>
      match page_extract_text p with
      | None => None
      | Some t =>
          if max_chars <? total_chars + len t then
            let remaining := max_chars - total_chars in
            Some (extracted_text ++ [str_slice_to t remaining])
          else pdf_page_loop rest max_chars (extracted_text ++ [t])
                 (total_chars + len t)
      end
  end.

Definition extract_text_from_pdf (E : Env) (pdf_content : bytes)
    (max_chars : Z) : string :=
  match pdf_pages E pdf_content with
  | None => ""
  | Some pages =>
      match pdf_page_loop pages max_chars [] 0 with
      | None => ""
      | Some extracted_text => join_lines extracted_text
      end
  end.

(** [t[:max_chars] if len(t) > max_chars else t] *)
Definition truncate (t : string) (max_chars : Z) : string :=
  if max_chars <? len t then str_slice_to t max_chars else t.

Definition extract_text_from_docx (E : Env) (file_content : bytes)
    (max_chars : Z) : string :=
  match docx_paragraphs E file_content with
  | None => ""
  | Some paras =>
      let paragraphs :=
        List.filter (fun p => negb (String.eqb (strip p) "")) paras in
      truncate (join_lines paragraphs) max_chars
  end.

(** [file_name.lower().split('.')[-1]] *)
Definition extension (file_name : string) : string :=
  List.last (split dot (lower file_name)) "".

Definition extract_text_from_file (E : Env) (file_content : bytes)
    (file_name : string) (max_chars : Z) : result string :=
  let ext := extension file_name in
  if String.eqb ext "pdf" then
    Ok (extract_text_from_pdf E file_content max_chars)
  else if String.eqb ext "docx" || String.eqb ext "doc" then
    Ok (extract_text_from_docx E file_content max_chars)
  else if String.eqb ext "txt" || String.eqb ext "text" then
    match decode_utf8 E file_content with
    | Some t => Ok (truncate t max_chars)
    | None => Raise UnicodeDecodeError
    end
  else Ok "".

Definition default_max_chars : Z := 100000.

(** ** Responses, the world, and the handler monad *)

(** What [create_response] returns; [body] is the value handed to
    [json.dumps]. *)
Record response : Type := {
  statusCode : Z;
  headers : list (string * string);
  body : pyval
}.

Definition default_headers : list (string * string) :=
  [ ("Content-Type", "application/json");
    ("Access-Control-Allow-Origin", "*");
    ("Access-Control-Allow-Headers", "Content-Type,Authorization");
    ("Access-Control-Allow-Methods", "GET,POST,PUT,DELETE,OPTIONS") ].

Definition create_response (status_code : Z) (b : pyval) : response :=
  {| statusCode := status_code; headers := default_headers; body := b |}.

Definition error_body (msg : string) : pyval := VDict [("error", VStr msg)].

(** One stored chat turn, as [save_chat_message] writes it. *)
Record chat_message : Type := {
  chatId : string;
  chat_documentId : string;
  chat_userId : pyval;
  userMessage : pyval;
  assistantResponse : pyval;
  createdAt : string
}.

(** The stores and the counters of what has been drawn from the
    environment.  A table is a map from its primary key to the item;
    [chat_history] is the chat table listed in the order of its
    [documentId-index]. *)
Record World : Type := {
  documents : gmap string dict;
  summaries : gmap string dict;
  flashcards : gmap string dict;
  quizzes : gmap string dict;
  chat_history : list chat_message;
  s3_objects : gmap string bytes;
  ids_drawn : nat;
  clock_reads : nat;
  model_calls : list pyval
}.

(** Field updates of the world. *)
Definition with_documents (t : gmap string dict) (w : World) : World :=
  {| documents := t; summaries := summaries w; flashcards := flashcards w;
     quizzes := quizzes w; chat_history := chat_history w;
     s3_objects := s3_objects w; ids_drawn := ids_drawn w;
     clock_reads := clock_reads w; model_calls := model_calls w |}.

Definition with_summaries (t : gmap string dict) (w : World) : World :=
  {| documents := documents w; summaries := t; flashcards := flashcards w;
     quizzes := quizzes w; chat_history := chat_history w;
     s3_objects := s3_objects w; ids_drawn := ids_drawn w;
     clock_reads := clock_reads w; model_calls := model_calls w |}.

Definition with_flashcards (t : gmap string dict) (w : World) : World :=
  {| documents := documents w; summaries := summaries w; flashcards := t;
     quizzes := quizzes w; chat_history := chat_history w;
     s3_objects := s3_objects w; ids_drawn := ids_drawn w;
     clock_reads := clock_reads w; model_calls := model_calls w |}.

Definition with_quizzes (t : gmap string dict) (w : World) : World :=
  {| documents := documents w; summaries := summaries w;
     flashcards := flashcards w; quizzes := t;
     chat_history := chat_history w; s3_objects := s3_objects w;
     ids_drawn := ids_drawn w; clock_reads := clock_reads w;
     model_calls := model_calls w |}.

Definition with_chat_history (t : list chat_message) (w : World) : World :=
  {| documents := documents w; summaries := summaries w;
     flashcards := flashcards w; quizzes := quizzes w; chat_history := t;
     s3_objects := s3_objects w; ids_drawn := ids_drawn w;
     clock_reads := clock_reads w; model_calls := model_calls w |}.

Definition with_s3_objects (t : gmap string bytes) (w : World) : World :=
  {| documents := documents w; summaries := summaries w;
     flashcards := flashcards w; quizzes := quizzes w;
     chat_history := chat_history w; s3_objects := t;
     ids_drawn := ids_drawn w; clock_reads := clock_reads w;
     model_calls := model_calls w |}.

Definition count_id (w : World) : World :=
  {| documents := documents w; summaries := summaries w;
     flashcards := flashcards w; quizzes := quizzes w;
     chat_history := chat_history w; s3_objects := s3_objects w;
     ids_drawn := S (ids_drawn w); clock_reads := clock_reads w;
     model_calls := model_calls w |}.

Definition count_clock (w : World) : World :=
  {| documents := documents w; summaries := summaries w;
     flashcards := flashcards w; quizzes := quizzes w;
     chat_history := chat_history w; s3_objects := s3_objects w;
     ids_drawn := ids_drawn w; clock_reads := S (clock_reads w);
     model_calls := model_calls w |}.

Definition record_call (payload : pyval) (w : World) : World :=
  {| documents := documents w; summaries := summaries w;
     flashcards := flashcards w; quizzes := quizzes w;
     chat_history := chat_history w; s3_objects := s3_objects w;
     ids_drawn := ids_drawn w; clock_reads := clock_reads w;
     model_calls := model_calls w ++ [payload] |}.

Inductive outcome (A : Type) : Type :=
| Val (a : A)
| Return (r : response)
| Raised (e : exn).
Arguments Val {A} a.
Arguments Return {A} r.
Arguments Raised {A} e.

Definition M (A : Type) : Type := World -> outcome A * World.

Definition ret {A} (a : A) : M A := fun w => (Val a, w).

Definition bind {A B} (m : M A) (f : A -> M B) : M B :=
  fun w =>
    match m w with
    | (Val a, w') => f a w'
    | (Return r, w') => (Return r, w')
    | (Raised e, w') => (Raised e, w')
    end.

Notation "'let*' x ':=' m 'in' k" := (bind m (fun x => k))
  (at level 10, x name, m at level 100, k at level 200).

(** [return r] from inside the handler. *)
Definition return_ {A} (r : response) : M A := fun w => (Return r, w).

Definition raise {A} (e : exn) : M A := fun w => (Raised e, w).

Definition lift {A} (r : result A) : M A :=
  match r with
  | Ok a => ret a
  | Raise e => raise e
  end.

(** [if c: return r] *)
Definition return_if (c : bool) (r : response) : M unit :=
  if c then return_ r else ret tt.

Definition get_world : M World := fun w => (Val w, w).
Definition put_world (w : World) : M unit := fun _ => (Val tt, w).

(** [try: ... except Exception as e: return create_response(500, ...)] *)
Definition run_handler (E : Env) (m : M response) (w : World)
  : response * World :=
  match m w with
  | (Val r, w') => (r, w')
  | (Return r, w') => (r, w')
  | (Raised e, w') => (create_response 500 (error_body (str_exn E e)), w')
  end.

(** ** Utility functions *)

Definition generate_id (E : Env) (prefix : string) : M string :=
  fun w => (Val (prefix +:+ uuid4 E (ids_drawn w)), count_id w).

Definition get_timestamp (E : Env) : M string :=
  fun w => (Val (utcnow_isoformat E (clock_reads w) +:+ "Z"), count_clock w).

Definition parse_body (E : Env) (event : pyval) : result pyval :=
  let! b := py_get event "body" (VStr "{}") in
  match b with
  | VStr s => if String.eqb s "" then Ok (VDict []) else json_loads E s
  | _ => Ok (py_or b (VDict []))
  end.

Definition get_user_id_from_event (event : pyval) : pyval :=
  match
    (let! request_context := py_get event "requestContext" (VDict []) in
     let! authorizer := py_get request_context "authorizer" (VDict []) in
     let! claims := py_get authorizer "claims" (VDict []) in
     let! username := py_get claims "cognito:username" (VStr "anonymous") in
     py_get claims "sub" username)
  with
  | Ok user_id => user_id
  | Raise _ => VStr "anonymous"
  end.

(** [event['pathParameters'][name]] *)
Definition path_parameter (event : pyval) (name : string) : result pyval :=
  let! params := getitem event "pathParameters" in
  getitem params name.

(** [str(v)], as [str.format] and f-strings render a value. *)
Definition py_str (E : Env) (v : pyval) : string :=
  match v with
  | VNone => "None"
  | VBool true => "True"
  | VBool false => "False"
  | VInt z => str_of_Z z
  | VStr s => s
  | _ => repr E v
  end.

(** ** The model gateway *)

Definition gemini_url (E : Env) : string :=
  "https://generativelanguage.googleapis.com/v1beta/models/gemini-2.0-flash:generateContent?key="
  +:+ GEMINI_API_KEY E.

(** The request is sent and remembered in [model_calls]. *)
Definition http_post (E : Env) (url : string) (payload : pyval)
  : M http_response :=
  fun w =>
    match requests_post E (length (model_calls w)) url payload with
    | Ok r => (Val r, record_call payload w)
    | Raise e => (Raised e, record_call payload w)
    end.

Definition call_gpt (E : Env) (prompt : string) (system_prompt : option string)
    (max_tokens : Z) (temperature : float) : M pyval :=
  if String.eqb (GEMINI_API_KEY E) "" then
    raise (ValueError "GEMINI_API_KEY is not set")
  else
    let full_prompt :=
      match system_prompt with
      | Some sp =>
          if String.eqb sp "" then prompt
          else sp +:+ String newline (String newline prompt)
      | None => prompt
      end in
    let payload :=
      VDict [ ("contents",
               VList [VDict [("parts", VList [VDict [("text", VStr full_prompt)]])]]);
              ("generationConfig",
               VDict [ ("temperature", VFloat temperature);
                       ("maxOutputTokens", VInt max_tokens) ]) ] in
    let* resp := http_post E (gemini_url E) payload in
    if negb (status_code resp =? 200) then
      let* j := lift (response_json resp) in
      let* err := lift (py_get j "error" (VDict [])) in
      let* error_detail :=
        lift (py_get err "message" (VStr (response_text resp))) in
      raise (Exception ("Gemini API error: " +:+ py_str E error_detail))
    else
      let* j := lift (response_json resp) in
      lift (let! candidates := getitem j "candidates" in
            let! candidate := getindex candidates 0 in
            let! content := getitem candidate "content" in
            let! parts := getitem content "parts" in
            let! part := getindex parts 0 in
            getitem part "text").

(** The fence removal of [call_gpt_json], on the stripped text. *)
Definition strip_code_fence (result : string) : string :=
  let result :=
    if startswith "```json" result then text (slice_from (chars result) 7)
    else if startswith "```" result then text (slice_from (chars result) 3)
    else result in
  if endswith "```" result then str_slice_to result (-3) else result.

(** From the raw completion to the decoded value. *)
Definition decode_completion (E : Env) (raw : pyval) : result pyval :=
  match raw with
  | VStr s => json_loads E (strip (strip_code_fence (strip s)))
  | _ => Raise AttributeError
  end.

Definition temperature_0_7 : float :=
  PrimFloat.div (float_of_Z 7) (float_of_Z 10).
Definition temperature_0_5 : float :=
  PrimFloat.div (float_of_Z 5) (float_of_Z 10).

Definition call_gpt_json (E : Env) (prompt : string)
    (system_prompt : option string) (max_tokens : Z) : M pyval :=
  let* result := call_gpt E prompt system_prompt max_tokens temperature_0_7 in
  lift (decode_completion E result).

(** ** Table operations *)

(** [table.get_item(Key={...}).get('Item')]; the store refuses a key
    that is not a string. *)
Definition get_item (table : gmap string dict) (key : pyval)
  : result (option dict) :=
  match key with
  | VStr k => Ok (table !! k)
  | _ => Raise ClientError
  end.

(** [table.query] on a secondary index with an equality condition. *)
Definition query_index (table : gmap string dict) (attr : string)
    (v : pyval) : result (list dict) :=
  match v with
  | VStr s =>
      Ok (List.filter
            (fun item =>
               match dict_get attr item with
               | Some (VStr s') => String.eqb s' s
               | _ => false
               end)
            (map snd (map_to_list table)))
  | _ => Raise ClientError
  end.

(** [if not item] for what [get_item] gave. *)
Definition missing (item : option dict) : bool :=
  match item with
  | None => true
  | Some [] => true
  | Some _ => false
  end.

Definition get_document_by_id (document_id : pyval) : M (option dict) :=
  fun w => lift (get_item (documents w) document_id) w.


Definition save_summary (E : Env) (document_id user_id content language : pyval)
  : M dict :=
  let* summary_id := generate_id E "sum-" in
  let* created_at := get_timestamp E in
  let summary :=
    [ ("summaryId", VStr summary_id); ("documentId", document_id);
      ("userId", user_id); ("content", content); ("language", language);
      ("createdAt", VStr created_at) ] in
  fun w => (Val summary, with_summaries (<[summary_id := summary]> (summaries w)) w).

Definition get_summary_by_document (document_id : pyval) : M (option dict) :=
  fun w =>
    match query_index (summaries w) "documentId" document_id with
    | Ok items => (Val (head items), w)
    | Raise e => (Raised e, w)
    end.

Definition save_flashcard_set (E : Env)
    (document_id user_id title cards language : pyval) : M dict :=
  let* flashcard_set_id := generate_id E "fc-" in
  let* card_count := lift (py_len cards) in
  let* created_at := get_timestamp E in
  let flashcard_set :=
    [ ("flashcardSetId", VStr flashcard_set_id); ("documentId", document_id);
      ("userId", user_id); ("title", title); ("cards", cards);
      ("cardCount", VInt (Z.of_nat card_count)); ("language", language);
      ("createdAt", VStr created_at) ] in
  fun w =>
    (Val flashcard_set,
     with_flashcards (<[flashcard_set_id := flashcard_set]> (flashcards w)) w).

Definition get_flashcards_by_document (document_id : pyval) : M (list dict) :=
  fun w => lift (query_index (flashcards w) "documentId" document_id) w.

Definition save_quiz (E : Env)
    (document_id user_id title questions language : pyval) : M dict :=
  let* quiz_id := generate_id E "quiz-" in
  let* question_count := lift (py_len questions) in
  let* created_at := get_timestamp E in
  let quiz :=
    [ ("quizId", VStr quiz_id); ("documentId", document_id);
      ("userId", user_id); ("title", title); ("questions", questions);
      ("questionCount", VInt (Z.of_nat question_count));
      ("language", language); ("attempts", VList []);
      ("createdAt", VStr created_at) ] in
  fun w => (Val quiz, with_quizzes (<[quiz_id := quiz]> (quizzes w)) w).

Definition get_quiz_by_id (quiz_id : pyval) : M (option dict) :=
  fun w => lift (get_item (quizzes w) quiz_id) w.

(** [update_item] with [list_append(if_not_exists(attempts, :empty), :attempt)] *)
Definition append_attempt (quiz_id : pyval) (attempt : pyval) : M unit :=
  fun w =>
    match quiz_id with
    | VStr k =>
        let item :=
          match quizzes w !! k with
          | Some item => item
          | None => [("quizId", VStr k)]
          end in
        match dict_get "attempts" item with
        | None =>
            (Val tt,
             with_quizzes
               (<[k := dict_set "attempts" (VList [attempt]) item]> (quizzes w)) w)
        | Some (VList l) =>
            (Val tt,
             with_quizzes
               (<[k := dict_set "attempts" (VList (l ++ [attempt])) item]>
                  (quizzes w)) w)
        | Some _ => (Raised ClientError, w)
        end
    | _ => (Raised ClientError, w)
    end.

Definition save_quiz_attempt (E : Env) (quiz_id answers : pyval)
    (score total_questions : nat) (percentage : pyval) : M dict :=
  let* attempt_id := generate_id E "att-" in
  let* completed_at := get_timestamp E in
  let attempt :=
    [ ("attemptId", VStr attempt_id); ("answers", answers);
      ("score", VInt (Z.of_nat score));
      ("totalQuestions", VInt (Z.of_nat total_questions));
      ("percentage", percentage); ("completedAt", VStr completed_at) ] in
  let* _ := append_attempt quiz_id (VDict attempt) in
  ret attempt.

(** A chat turn as the item the table holds. *)
Definition chat_item (c : chat_message) : dict :=
  [ ("chatId", VStr (chatId c)); ("documentId", VStr (chat_documentId c));
    ("userId", chat_userId c); ("userMessage", userMessage c);
    ("assistantResponse", assistantResponse c);
    ("createdAt", VStr (createdAt c)) ].

Definition save_chat_message (E : Env) (document_id : string)
    (user_id user_message assistant_response : pyval) : M chat_message :=
  let* chat_id := generate_id E "chat-" in
  let* created_at := get_timestamp E in
  let chat :=
    {| chatId := chat_id; chat_documentId := document_id;
       chat_userId := user_id; userMessage := user_message;
       assistantResponse := assistant_response; createdAt := created_at |} in
  fun w =>
    (Val chat,
     with_chat_history
       (List.filter (fun c => negb (String.eqb (chatId c) chat_id))
          (chat_history w) ++ [chat]) w).

(** [sorted(items, key=createdAt)]: a stable insertion sort. *)
Fixpoint insert_by_createdAt (x : chat_message) (l : list chat_message)
  : list chat_message :=
  match l with
  | [] => [x]
  | y :: l' =>
      if String.ltb (createdAt y) (createdAt x)
      then y :: insert_by_createdAt x l'
      else x :: y :: l'
  end.

Definition sorted_by_createdAt (l : list chat_message) : list chat_message :=
  foldr insert_by_createdAt [] l.

(** The index query of [get_chat_history_by_document]: the document's
    turns from the end of the index, at most [limit] of them. *)
Definition query_chat_desc (table : list chat_message) (document_id : string)
    (limit : nat) : list chat_message :=
  firstn limit
    (rev (List.filter (fun c => String.eqb (chat_documentId c) document_id)
            table)).

Definition chat_history_limit : nat := 20.

Definition get_chat_history_by_document (table : list chat_message)
    (document_id : string) (user_id : pyval) (limit : nat)
  : list chat_message :=
  let items :=
    List.filter (fun item => py_eq (chat_userId item) user_id)
      (query_chat_desc table document_id limit) in
  sorted_by_createdAt items.

(** ** The quiz grader *)

(** The exact value of a finite float in tenths, rounded half to even. *)
Definition round_tenths (x : float) : option Z :=
  match FloatOps.Prim2SF x with
  | SpecFloat.S754_zero _ => Some 0
  | SpecFloat.S754_finite s m e =>
      let n := Z.pos m * 10 in
      let k :=
        if 0 <=? e then n * 2 ^ e
        else
          let d := 2 ^ (- e) in
          let q := n / d in
          let r := n mod d in
          if 2 * r <? d then q
          else if d <? 2 * r then q + 1
          else if Z.even q then q else q + 1 in
      Some (if s then - k else k)
  | _ => None
  end.

(** [round(x, 1)] *)
Definition py_round1 (x : float) : float :=
  match round_tenths x with
  | Some k =>
      if k =? 0 then PrimFloat.mul x (float_of_Z 0)
      else if Z.abs k <? 2 ^ 53
      then PrimFloat.div (float_of_Z k) (float_of_Z 10)
      else x
  | None => x
  end.

(** [round((correct / total) * 100, 1) if total > 0 else 0] *)
Definition percentage_of (correct total : nat) : pyval :=
  if (0 <? total)%nat then
    VFloat (py_round1
              (PrimFloat.mul
                 (PrimFloat.div (float_of_nat correct) (float_of_nat total))
                 (float_of_Z 100)))
  else VInt 0.

(** [v >= n] for a number [v] *)
Definition py_ge_int (v : pyval) (n : Z) : bool :=
  match v with
  | VInt z => n <=? z
  | VFloat f => PrimFloat.leb (float_of_Z n) f
  | _ => false
  end.

Definition question_result (idx : nat)
    (user_answer correct_answer : pyval) (is_correct : bool)
    (explanation : pyval) : pyval :=
  VDict [ ("question_index", VInt (Z.of_nat idx));
          ("user_answer", user_answer);
          ("correct_answer", correct_answer);
          ("is_correct", VBool is_correct);
          ("explanation", explanation) ].

(** The grading loop of [submit_quiz], from question [idx] on. *)
Fixpoint grade_loop (questions : list pyval) (answers : pyval) (idx : nat)
    (correct : nat) (results : list pyval) : result (nat * list pyval) :=
  match questions with
  | [] => Ok (correct, results)
  | question :: rest =>
      let! user_answer := py_get answers (str_of_nat idx) VNone in
      let! correct_answer := getitem question "correct_answer" in
      let is_correct := py_eq user_answer correct_answer in
      let correct := if is_correct then S correct else correct in
      let! explanation := py_get question "explanation" (VStr "") in
      grade_loop rest answers (S idx) correct
        (results ++
           [question_result idx user_answer correct_answer is_correct explanation])
  end.

Record grade : Type := {
  score : nat;
  totalQuestions : nat;
  percentage : pyval;
  results : list pyval;
  passed : bool
}.

(** Lines 811-833 and 850 of [submit_quiz]: the grade of [questions]
    against [answers]. *)
Definition grade_quiz (questions answers : pyval) : result grade :=
  let! total := py_len questions in
  let! qs := py_iter questions in
  let! graded := grade_loop qs answers 0 0 [] in
  let pct := percentage_of (fst graded) total in
  Ok {| score := fst graded; totalQuestions := total; percentage := pct;
        results := snd graded; passed := py_ge_int pct 60 |}.

Definition grade_body (g : grade) : pyval :=
  VDict [ ("message", VStr "Quiz submitted");
          ("result",
           VDict [ ("score", VInt (Z.of_nat (score g)));
                   ("totalQuestions", VInt (Z.of_nat (totalQuestions g)));
                   ("percentage", percentage g);
                   ("results", VList (results g));
                   ("passed", VBool (passed g)) ]) ].

(** ** The handlers *)

Definition access_denied : response :=
  create_response 403 (error_body "Access denied").

Definition not_found (what : string) : response :=
  create_response 404 (error_body (what +:+ " not found")).

Definition no_text_content : response :=
  create_response 400 (error_body "No text content available").

(** The check every handler makes on the entity it loaded:
    [if not entity: return 404] then
    [if entity.get('userId') != user_id: return 403]. *)
Definition check_owner (entity : option dict) (what : string)
    (user_id : pyval) : M dict :=
  match entity with
  | Some ((_ :: _) as item) =>
      if negb (py_eq (item_get item "userId") user_id)
      then return_ access_denied
      else ret item
  | _ => return_ (not_found what)
  end.

(** [document.get('extractedText', '')] *)
Definition extracted_text_of (document : dict) : pyval :=
  item_get_or document "extractedText" (VStr "").

(** [s3_client.get_object(Bucket, Key)['Body'].read()] *)
Definition s3_get_object (key : pyval) : M bytes :=
  fun w =>
    match key with
    | VStr k =>
        match s3_objects w !! k with
        | Some content => (Val content, w)
        | None => (Raised ClientError, w)
        end
    | _ => (Raised ClientError, w)
    end.

(** [extract_text_from_file(file_content, file_name)] for a file name
    taken from a stored item. *)
Definition extract_text_of_item (E : Env) (file_content : bytes)
    (file_name : pyval) : result pyval :=
  match file_name with
  | VStr name =>
      let! t := extract_text_from_file E file_content name default_max_chars in
      Ok (VStr t)
  | _ => Raise AttributeError
  end.

Definition summarize_document (E : Env) (event : pyval)
  : World -> response * World :=
  run_handler E
    (let user_id := get_user_id_from_event event in
     let* document_id := lift (path_parameter event "documentId") in
     let* body := lift (parse_body E event) in
     let* language := lift (py_get body "language" (VStr "Vietnamese")) in
     let* found := get_document_by_id document_id in
     let* document := check_owner found "Document" user_id in
     let* extracted_text :=
       if truthy (extracted_text_of document) then
         ret (extracted_text_of document)
       else
         let* s3_key := lift (getitem (VDict document) "s3Key") in
         let* file_content := s3_get_object s3_key in
         let* file_name := lift (getitem (VDict document) "fileName") in
         lift (extract_text_of_item E file_content file_name) in
     let* _ := return_if (negb (truthy extracted_text)) no_text_content in
     let* content := lift (py_slice_to extracted_text 15000) in
     let prompt := SUMMARIZE_PROMPT E (py_str E content) (py_str E language) in
     let* summary_content := call_gpt E prompt None 2000 temperature_0_5 in
     let* summary :=
       save_summary E document_id user_id summary_content language in
     ret (create_response 200
            (VDict [ ("message", VStr "Summary generated successfully");
                     ("summary", VDict summary) ]))).

Definition get_summary (E : Env) (event : pyval)
  : World -> response * World :=
  run_handler E
    (let user_id := get_user_id_from_event event in
     let* document_id := lift (path_parameter event "documentId") in
     let* found := get_document_by_id document_id in
     let* _ := check_owner found "Document" user_id in
     let* summary := get_summary_by_document document_id in
     match summary with
     | Some ((_ :: _) as s) =>
         ret (create_response 200 (VDict [("summary", VDict s)]))
     | _ => return_ (not_found "Summary")
     end).

(** [body.get('count') or body.get('numCards') or 20] *)
Definition requested_cards (body : pyval) : result pyval :=
  let! count := py_get body "count" VNone in
  if truthy count then Ok count
  else
    let! num_cards := py_get body "numCards" VNone in
    Ok (py_or num_cards (VInt 20)).

Definition create_flashcards (E : Env) (event : pyval)
  : World -> response * World :=
  run_handler E
    (let user_id := get_user_id_from_event event in
     let* document_id := lift (path_parameter event "documentId") in
     let* body := lift (parse_body E event) in
     let* num_cards := lift (requested_cards body) in
     let* language := lift (py_get body "language" (VStr "Vietnamese")) in
     let* title := lift (py_get body "title" (VStr "Flashcard Set")) in
     let* found := get_document_by_id document_id in
     let* document := check_owner found "Document" user_id in
     let extracted_text := extracted_text_of document in
     let* _ := return_if (negb (truthy extracted_text)) no_text_content in
     let* content := lift (py_slice_to extracted_text 15000) in
     let prompt :=
       FLASHCARDS_PROMPT E (py_str E content) (py_str E num_cards)
         (py_str E language) in
     let* cards := call_gpt_json E prompt None 4000 in
     let* flashcard_set :=
       save_flashcard_set E document_id user_id title cards language in
     ret (create_response 201
            (VDict [ ("message", VStr "Flashcards created successfully");
                     ("flashcardSet", VDict flashcard_set);
                     ("flashcards", cards) ]))).

Definition get_flashcards (E : Env) (event : pyval)
  : World -> response * World :=
  run_handler E
    (let user_id := get_user_id_from_event event in
     let* document_id := lift (path_parameter event "documentId") in
     let* found := get_document_by_id document_id in
     let* _ := check_owner found "Document" user_id in
     let* flashcard_sets := get_flashcards_by_document document_id in
     ret (create_response 200
            (VDict [("flashcardSets", VList (map VDict flashcard_sets))]))).

(** [body.get('questionCount') or body.get('numQuestions') or 10] *)
Definition requested_questions (body : pyval) : result pyval :=
  let! question_count := py_get body "questionCount" VNone in
  if truthy question_count then Ok question_count
  else
    let! num_questions := py_get body "numQuestions" VNone in
    Ok (py_or num_questions (VInt 10)).

(** [n > v] for an integer [n] *)
Definition int_gt (n : Z) (v : pyval) : result bool :=
  match v with
  | VInt z => Ok (z <? n)
  | VBool b => Ok (int_of_bool b <? n)
  | VFloat f => Ok (PrimFloat.ltb f (float_of_Z n))
  | _ => Raise TypeError
  end.

(** The bound of a slice: an integer. *)
Definition slice_bound (v : pyval) : result Z :=
  match v with
  | VInt z => Ok z
  | VBool b => Ok (int_of_bool b)
  | _ => Raise TypeError
  end.

(** Lines 742-744 of [create_quiz]:
    [if isinstance(questions, list) and len(questions) > num_questions:
       questions = questions[:num_questions]] *)
Definition trim_questions (questions num_questions : pyval) : result pyval :=
  match questions with
  | VList l =>
      let! longer := int_gt (Z.of_nat (length l)) num_questions in
      if longer then
        let! k := slice_bound num_questions in
        Ok (VList (slice_to l k))
      else Ok questions
  | _ => Ok questions
  end.

Definition create_quiz (E : Env) (event : pyval)
  : World -> response * World :=
  run_handler E
    (let user_id := get_user_id_from_event event in
     let* document_id := lift (path_parameter event "documentId") in
     let* body := lift (parse_body E event) in
     let* num_questions := lift (requested_questions body) in
     let* language := lift (py_get body "language" (VStr "Vietnamese")) in
     let* title := lift (py_get body "title" (VStr "Quiz")) in
     let* difficulty := lift (py_get body "difficulty" (VStr "medium")) in
     let* found := get_document_by_id document_id in
     let* document := check_owner found "Document" user_id in
     let extracted_text := extracted_text_of document in
     let* _ := return_if (negb (truthy extracted_text)) no_text_content in
     let* content := lift (py_slice_to extracted_text 15000) in
     let prompt :=
       QUIZ_PROMPT E (py_str E content) (py_str E num_questions)
         (py_str E language) (py_str E difficulty) in
     let* decoded := call_gpt_json E prompt None 4000 in
     let* questions := lift (trim_questions decoded num_questions) in
     let* quiz := save_quiz E document_id user_id title questions language in
     ret (create_response 201
            (VDict [ ("message", VStr "Quiz created successfully");
                     ("quiz", VDict quiz) ]))).

(** The loop of [get_quiz] that hides the answers. *)
Fixpoint questions_for_user (questions : list pyval) : result (list pyval) :=
  match questions with
  | [] => Ok []
  | q :: rest =>
      let! question := getitem q "question" in
      let! options := getitem q "options" in
      let! others := questions_for_user rest in
      Ok (VDict [("question", question); ("options", options)] :: others)
  end.

Definition get_quiz (E : Env) (event : pyval)
  : World -> response * World :=
  run_handler E
    (let user_id := get_user_id_from_event event in
     let* quiz_id := lift (path_parameter event "quizId") in
     let* found := get_quiz_by_id quiz_id in
     let* quiz := check_owner found "Quiz" user_id in
     let* questions :=
       lift (py_iter (item_get_or quiz "questions" (VList []))) in
     let* for_user := lift (questions_for_user questions) in
     let* id := lift (getitem (VDict quiz) "quizId") in
     let title := item_get_or quiz "title" (VStr "Quiz") in
     ret (create_response 200
            (VDict [ ("quiz",
                      VDict [ ("quizId", id); ("title", title);
                              ("questions", VList for_user);
                              ("questionCount",
                               VInt (Z.of_nat (length for_user))) ]) ]))).

Definition submit_quiz (E : Env) (event : pyval)
  : World -> response * World :=
  run_handler E
    (let user_id := get_user_id_from_event event in
     let* quiz_id := lift (path_parameter event "quizId") in
     let* body := lift (parse_body E event) in
     let* answers := lift (py_get body "answers" (VDict [])) in
     let* found := get_quiz_by_id quiz_id in
     let* quiz := check_owner found "Quiz" user_id in
     let* questions := lift (getitem (VDict quiz) "questions") in
     let* g := lift (grade_quiz questions answers) in
     let* _ :=
       save_quiz_attempt E quiz_id answers (score g) (totalQuestions g)
         (percentage g) in
     ret (create_response 200 (grade_body g))).

Definition chat_with_document (E : Env) (event : pyval)
  : World -> response * World :=
  run_handler E
    (let user_id := get_user_id_from_event event in
     let* document_id := lift (path_parameter event "documentId") in
     let* body := lift (parse_body E event) in
     let* asked := lift (py_get body "question" VNone) in
     let* question :=
       if truthy asked then ret asked
       else lift (py_get body "message" (VStr "")) in
     let* language := lift (py_get body "language" (VStr "Vietnamese")) in
     let* _ :=
       return_if (negb (truthy question))
         (create_response 400 (error_body "Question/message is required")) in
     let* found := get_document_by_id document_id in
     let* document := check_owner found "Document" user_id in
     let extracted_text := extracted_text_of document in
     let* _ := return_if (negb (truthy extracted_text)) no_text_content in
     let* content := lift (py_slice_to extracted_text 10000) in
     let system_prompt := CHAT_SYSTEM_PROMPT E (py_str E content) in
     let user_prompt :=
       chat_user_prompt E (py_str E question) (py_str E language) in
     let* answer :=
       call_gpt E user_prompt (Some system_prompt) 2000 temperature_0_7 in
     let* id :=
       match document_id with
       | VStr k => ret k
       | _ => raise ClientError
       end in
     let* chat := save_chat_message E id user_id question answer in
     ret (create_response 200
            (VDict [ ("question", question); ("answer", answer);
                     ("chatId", VStr (chatId chat)) ]))).

Definition get_chat_history (E : Env) (event : pyval)
  : World -> response * World :=
  run_handler E
    (let user_id := get_user_id_from_event event in
     let* document_id := lift (path_parameter event "documentId") in
     let* found := get_document_by_id document_id in
     let* _ := check_owner found "Document" user_id in
     let* id :=
       match document_id with
       | VStr k => ret k
       | _ => raise ClientError
       end in
     let* w := get_world in
     let history :=
       get_chat_history_by_document (chat_history w) id user_id
         chat_history_limit in
     ret (create_response 200
            (VDict [ ("chatHistory", VList (map (fun c => VDict (chat_item c)) history));
                     ("count", VInt (Z.of_nat (length history))) ]))).

(** [level_instructions.get(level, level_instructions['eli5'])] *)
Definition level_instruction (E : Env) (level : pyval) : result string :=
  match level with
  | VList _ | VDict _ => Raise TypeError
  | VStr l =>
      if String.eqb l "eli5" then Ok (level_eli5 E)
      else if String.eqb l "beginner" then Ok (level_beginner E)
      else if String.eqb l "intermediate" then Ok (level_intermediate E)
      else if String.eqb l "expert" then Ok (level_expert E)
      else Ok (level_eli5 E)
  | _ => Ok (level_eli5 E)
  end.

Definition text_required : response :=
  create_response 400 (error_body "Text or concept is required").

Definition text_too_long : response :=
  create_response 400 (error_body "Text too long").

Definition explain_concept (E : Env) (event : pyval)
  : World -> response * World :=
  run_handler E
    (let* body := lift (parse_body E event) in
     let* given := lift (py_get body "text" VNone) in
     let* txt :=
       if truthy given then ret given
       else lift (py_get body "concept" (VStr "")) in
     let* language := lift (py_get body "language" (VStr "Vietnamese")) in
     let* level := lift (py_get body "level" (VStr "eli5")) in
     let* _ := return_if (negb (truthy txt)) text_required in
     let* n := lift (py_len txt) in
     let* _ := return_if (5000 <? Z.of_nat n) text_too_long in
     let* instruction := lift (level_instruction E level) in
     let prompt :=
       instruction +:+
       String newline
         (String newline (EXPLAIN_PROMPT E (py_str E txt) (py_str E language))) in
     let* explanation := call_gpt E prompt None 2000 temperature_0_7 in
     ret (create_response 200
            (VDict [ ("originalText", txt); ("level", level);
                     ("explanation", explanation) ]))).

Definition get_document (E : Env) (event : pyval)
  : World -> response * World :=
  run_handler E
    (let user_id := get_user_id_from_event event in
     let* document_id := lift (path_parameter event "documentId") in
     let* found := get_document_by_id document_id in
     let* document := check_owner found "Document" user_id in
     let* summary := get_summary_by_document document_id in
     let* flashcard_sets := get_flashcards_by_document document_id in
     let doc_response :=
       dict_set "hasText" (VBool (truthy (item_get document "extractedText")))
         (dict_without "extractedText" document) in
     ret (create_response 200
            (VDict [ ("document", VDict doc_response);
                     ("summary",
                      match summary with
                      | Some s => VDict s
                      | None => VNone
                      end);
                     ("flashcardSets", VList (map VDict flashcard_sets)) ]))).


(** ** The listing handlers *)

Definition get_documents_by_user (user_id : pyval) : M (list dict) :=
  fun w => lift (query_index (documents w) "userId" user_id) w.

Definition get_flashcards_by_user (user_id : pyval) : M (list dict) :=
  fun w => lift (query_index (flashcards w) "userId" user_id) w.

Definition get_quizzes_by_user (user_id : pyval) : M (list dict) :=
  fun w => lift (query_index (quizzes w) "userId" user_id) w.

Definition list_flashcards (E : Env) (event : pyval)
  : World -> response * World :=
  run_handler E
    (let user_id := get_user_id_from_event event in
     let* flashcard_sets := get_flashcards_by_user user_id in
     ret (create_response 200
            (VDict [ ("flashcardSets", VList (map VDict flashcard_sets));
                     ("count", VInt (Z.of_nat (length flashcard_sets))) ]))).

(** One entry of the summary that [list_quizzes] builds. *)
Definition quiz_summary (q : dict) : result pyval :=
  let! quiz_id := getitem (VDict q) "quizId" in
  let! document_id := getitem (VDict q) "documentId" in
  let! attempts := py_len (item_get_or q "attempts" (VList [])) in
  Ok (VDict [ ("quizId", quiz_id); ("documentId", document_id);
              ("title", item_get_or q "title" (VStr "Quiz"));
              ("questionCount", item_get_or q "questionCount" (VInt 0));
              ("attempts", VInt (Z.of_nat attempts));
              ("createdAt", item_get q "createdAt") ]).

Fixpoint quizzes_summary (quizzes : list dict) : result (list pyval) :=
  match quizzes with
  | [] => Ok []
  | q :: rest =>
      let! entry := quiz_summary q in
      let! others := quizzes_summary rest in
      Ok (entry :: others)
  end.

Definition list_quizzes (E : Env) (event : pyval)
  : World -> response * World :=
  run_handler E
    (let user_id := get_user_id_from_event event in
     let* quizzes := get_quizzes_by_user user_id in
     let* summary := lift (quizzes_summary quizzes) in
     ret (create_response 200
            (VDict [ ("quizzes", VList summary);
                     ("count", VInt (Z.of_nat (length summary))) ]))).

(** One entry of the summary that [list_documents] builds. *)
Definition document_summary (doc : dict) : result pyval :=
  let! document_id := getitem (VDict doc) "documentId" in
  let! file_name := getitem (VDict doc) "fileName" in
  Ok (VDict [ ("documentId", document_id); ("fileName", file_name);
              ("fileSize", item_get_or doc "fileSize" (VInt 0));
              ("fileType", item_get_or doc "fileType" (VStr "pdf"));
              ("createdAt", item_get doc "createdAt");
              ("status", item_get_or doc "status" (VStr "active"));
              ("hasText", VBool (truthy (item_get doc "extractedText"))) ]).

Fixpoint docs_summary (documents : list dict) : result (list pyval) :=
  match documents with
  | [] => Ok []
  | doc :: rest =>
      let! entry := document_summary doc in
      let! others := docs_summary rest in
      Ok (entry :: others)
  end.

Definition list_documents (E : Env) (event : pyval)
  : World -> response * World :=
  run_handler E
    (let user_id := get_user_id_from_event event in
     let* documents := get_documents_by_user user_id in
     let* summary := lift (docs_summary documents) in
     ret (create_response 200
            (VDict [ ("documents", VList summary);
                     ("count", VInt (Z.of_nat (length summary))) ]))).

(** ** Uploading a document *)

(** [s.encode('utf-8')] on the code points 0..255. *)
Definition encode_char (c : ascii) : bytes :=
  let n := nat_of_ascii c in
  if (n <? 128)%nat then [byte_of_ascii c]
  else [ byte_of_ascii (ascii_of_nat (192 + n / 64));
         byte_of_ascii (ascii_of_nat (128 + n mod 64)) ].

Definition encode_utf8 (s : string) : bytes :=
  flat_map encode_char (chars s).

(** The environment of the upload handler: the environment of the
    others and [base64.b64decode]. *)
Record UploadEnv : Type := {
  upload_base : Env;
  b64decode : string -> result bytes
}.

Definition save_document (E : Env)
    (user_id : pyval) (file_name s3_key : string) (file_size : nat)
    (file_type extracted_text : string) : M dict :=
  let* document_id := generate_id E "doc-" in
  let* created_at := get_timestamp E in
  let document :=
    [ ("documentId", VStr document_id); ("userId", user_id);
      ("fileName", VStr file_name); ("s3Key", VStr s3_key);
      ("fileSize", VInt (Z.of_nat file_size)); ("fileType", VStr file_type);
      ("extractedText", VStr extracted_text);
      ("createdAt", VStr created_at); ("status", VStr "active") ] in
  fun w =>
    (Val document, with_documents (<[document_id := document]> (documents w)) w).

(** [s3_client.put_object(Bucket, Key, Body, ContentType)]; the store
    refuses a content type that is not a string. *)
Definition s3_put_object (key : string) (content : bytes) (content_type : pyval)
  : M unit :=
  fun w =>
    match content_type with
    | VStr _ => (Val tt, with_s3_objects (<[key := content]> (s3_objects w)) w)
    | _ => (Raised ClientError, w)
    end.

(** The two ways of [upload_document] to obtain the file and its text:
    a base64 file, or plain text content. *)
Definition uploaded_content (U : UploadEnv) (file_content_b64 plain_content
    file_name : pyval) : M (bytes * string) :=
  if truthy file_content_b64 then
    let* file_content :=
      lift (match file_content_b64 with
            | VStr s => b64decode U s
            | _ => Raise TypeError
            end) in
    let* extracted :=
      lift (extract_text_of_item (upload_base U) file_content file_name) in
    match extracted with
    | VStr t => ret (file_content, t)
    | _ => raise TypeError
    end
  else if truthy plain_content then
    match plain_content with
    | VStr t => ret (encode_utf8 t, t)
    | _ => raise AttributeError
    end
  else
    return_
      (create_response 400
         (error_body "Either 'file' (base64) or 'content' (text) is required")).

(** [file_name.split('.')[-1].lower()] *)
Definition stored_file_type (file_name : string) : string :=
  lower (List.last (split dot file_name) "").

Definition max_stored_text : Z := 50000.

Definition upload_document (U : UploadEnv) (event : pyval)
  : World -> response * World :=
  let E := upload_base U in
  run_handler E
    (let user_id := get_user_id_from_event event in
     let* body := lift (parse_body E event) in
     let* file_content_b64 := lift (py_get body "file" VNone) in
     let* plain_content := lift (py_get body "content" VNone) in
     let* given_name := lift (py_get body "fileName" VNone) in
     let* file_name :=
       if truthy given_name then ret given_name
       else lift (py_get body "filename" (VStr "document.txt")) in
     let* given_type := lift (py_get body "fileType" VNone) in
     let* file_type :=
       if truthy given_type then ret given_type
       else lift (py_get body "contentType" (VStr "text/plain")) in
     let* content :=
       uploaded_content U file_content_b64 plain_content file_name in
     let file_content := fst content in
     let extracted_text := snd content in
     let file_size := length file_content in
     let* unique := generate_id E "" in
     let s3_key :=
       "users/" +:+ py_str E user_id +:+ "/documents/" +:+ unique +:+ "/"
       +:+ py_str E file_name in
     let* _ := s3_put_object s3_key file_content file_type in
     let* name :=
       match file_name with
       | VStr name => ret name
       | _ => raise AttributeError
       end in
     let* document :=
       save_document E user_id name s3_key file_size (stored_file_type name)
         (str_slice_to extracted_text max_stored_text) in
     let response_doc :=
       dict_set "textExtracted" (VBool (0 <? len extracted_text))
         (dict_without "extractedText" document) in
     ret (create_response 201
            (VDict [ ("message", VStr "Document uploaded successfully");
                     ("document", VDict response_doc) ]))).

(** ** The properties, in the words of the specification *)

(** *** Fenced model output *)

(** The first and the last character of a JSON text: an object, an
    array, a string, a number, [true], [false] or [null]. *)
Definition is_digit (n : nat) : bool := ((48 <=? n) && (n <=? 57))%nat.

Definition json_opens (c : ascii) : bool :=
  let n := nat_of_ascii c in
  ((n =? 123) || (n =? 91) || (n =? 34) || (n =? 45) || is_digit n
   || (n =? 116) || (n =? 102) || (n =? 110))%nat.

Definition json_closes (c : ascii) : bool :=
  let n := nat_of_ascii c in
  ((n =? 125) || (n =? 93) || (n =? 34) || is_digit n
   || (n =? 101) || (n =? 108))%nat.

Definition looks_like_json (s : string) : bool :=
  match chars s with
  | c :: _ => json_opens c
  | [] => false
  end &&
  match rev (chars s) with
  | c :: _ => json_closes c
  | [] => false
  end.

Definition whitespace (s : string) : bool := forallb is_space (chars s).

(** A payload inside a code fence with the language tag [tag]
    (["json"] or none), with whitespace around the fence and around
    the payload. *)
Definition fenced (tag ws1 ws2 ws3 ws4 payload : string) : string :=
  ws1 +:+ "```" +:+ tag +:+ ws2 +:+ payload +:+ ws3 +:+ "```" +:+ ws4.

(** The three characters of a code fence. *)
Definition fence : list ascii := [backtick; backtick; backtick].

(** *** Text extraction *)

(** The sum of the lengths of the page texts kept. *)
Definition total_len (parts : list string) : Z :=
  fold_right (fun p n => len p + n) 0 parts.

(** *** The grading rule *)

(** The stored correct index of a question. *)
Definition correct_index (q : pyval) : option Z :=
  match q with
  | VDict kv =>
      match dict_get "correct_answer" kv with
      | Some (VInt c) => Some c
      | _ => None
      end
  | _ => None
  end.

(** The stored explanation of a question. *)
Definition stored_explanation (q : pyval) : pyval :=
  match q with
  | VDict kv => item_get_or kv "explanation" (VStr "")
  | _ => VStr ""
  end.

(** The answers map sends question indices to option indices. *)
Definition answers_are_indices (answers : dict) : Prop :=
  forall k v, dict_get k answers = Some v -> exists a, v = VInt a.

(** The submitted answer to question [i] is present and equals the
    stored correct index of [q]. *)
Definition answer_matches (answers : dict) (i : nat) (q : pyval) : bool :=
  match dict_get (str_of_nat i) answers, correct_index q with
  | Some (VInt a), Some c => a =? c
  | _, _ => false
  end.

(** The number of matching indices among [from, from + |qs|). *)
Fixpoint matching_from (answers : dict) (from : nat) (qs : list pyval) : nat :=
  match qs with
  | [] => 0
  | q :: rest =>
      ((if answer_matches answers from q then 1 else 0)
       + matching_from answers (S from) rest)%nat
  end.

Definition spec_score (answers : dict) (qs : list pyval) : nat :=
  matching_from answers 0 qs.

(** The detail of question [i]: the submitted answer, the stored
    correct answer, the match, the stored explanation. *)
Definition spec_detail (answers : dict) (i : nat) (q : pyval) : pyval :=
  question_result i
    (item_get answers (str_of_nat i))
    (match correct_index q with Some c => VInt c | None => VNone end)
    (answer_matches answers i q)
    (stored_explanation q).

Fixpoint spec_details_from (answers : dict) (from : nat) (qs : list pyval)
  : list pyval :=
  match qs with
  | [] => []
  | q :: rest =>
      spec_detail answers from q :: spec_details_from answers (S from) rest
  end.

(** [round(score / n * 100, 1)] *)
Definition spec_percentage (score n : nat) : float :=
  py_round1
    (PrimFloat.mul (PrimFloat.div (float_of_nat score) (float_of_nat n))
       (float_of_Z 100)).

(** The float nearest to [k / 10]. *)
Definition tenths (k : Z) : pyval :=
  VFloat (PrimFloat.div (float_of_Z k) (float_of_Z 10)).

(** *** What a question shows before and after submission *)



(** *** The shape the quiz prompt asks the model for

    [QUIZ_PROMPT], lines 234-239: an object with [question], four
    [options], [correctAnswer] (an index 0..3) and [explanation]. *)
Definition prompt_shaped (q : pyval) : Prop :=
  exists question a b c d (correct : Z) explanation,
    0 <= correct <= 3 /\
    q = VDict [ ("question", VStr question);
                ("options", VList [VStr a; VStr b; VStr c; VStr d]);
                ("correctAnswer", VInt correct);
                ("explanation", VStr explanation) ].

(** *** The count of cards, as the specification words it *)
Definition spec_requested_cards (client_count : Z) : Z := Z.max client_count 20.

(** *** The document-scoped operations *)








(** [body.get('question') or body.get('message', '')] *)
Definition chat_question (body : dict) : pyval :=
  py_or (item_get body "question") (item_get_or body "message" (VStr "")).

(** A computation that never leaves the handler early. *)
Definition stays {A} (m : M A) : Prop :=
  forall w r w', m w <> (Return r, w').

(** [body.get('text') or body.get('concept', '')] *)
Definition requested_text (body : dict) : pyval :=
  py_or (item_get body "text") (item_get_or body "concept" (VStr "")).


(** A stored document the caller owns. *)
Definition owned (event : pyval) (w : World) (id : string) : Prop :=
  exists doc,
    documents w !! id = Some doc /\ missing (Some doc) = false /\
    py_eq (item_get doc "userId") (get_user_id_from_event event) = true.

(** A stored document the caller owns, with text. *)
Definition owned_with_text (event : pyval) (w : World) (id : string)
    (t : string) : Prop :=
  exists doc,
    documents w !! id = Some doc /\ missing (Some doc) = false /\
    py_eq (item_get doc "userId") (get_user_id_from_event event) = true /\
    extracted_text_of doc = VStr t /\ t <> "".

(** The quiz item [save_quiz] writes. *)
Definition quiz_item (E : Env) (w : World)
    (document_id user_id title questions language : pyval) (count : nat)
  : dict :=
  [ ("quizId", VStr ("quiz-" +:+ uuid4 E (ids_drawn w)));
    ("documentId", document_id); ("userId", user_id); ("title", title);
    ("questions", questions); ("questionCount", VInt (Z.of_nat count));
    ("language", language); ("attempts", VList []);
    ("createdAt", VStr (utcnow_isoformat E (clock_reads w) +:+ "Z")) ].

(** The flashcard set [save_flashcard_set] writes. *)
Definition flashcard_item (E : Env) (w : World)
    (document_id user_id title cards language : pyval) (count : nat)
  : dict :=
  [ ("flashcardSetId", VStr ("fc-" +:+ uuid4 E (ids_drawn w)));
    ("documentId", document_id); ("userId", user_id); ("title", title);
    ("cards", cards); ("cardCount", VInt (Z.of_nat count));
    ("language", language);
    ("createdAt", VStr (utcnow_isoformat E (clock_reads w) +:+ "Z")) ].

(** *** Chat history *)

(** [a] carries a timestamp that is not later than that of [b]. *)
Definition not_later (a b : chat_message) : Prop :=
  String.ltb (createdAt b) (createdAt a) = false.

(** *** What a handler touches *)

(** The stores of the world: the five tables and the blobs. *)
Definition stores (w : World)
  : gmap string dict * gmap string dict * gmap string dict * gmap string dict
    * list chat_message * gmap string bytes :=
  (documents w, summaries w, flashcards w, quizzes w, chat_history w,
   s3_objects w).

(** A computation that leaves the part [part] of the world as it was,
    whatever its outcome. *)
Definition keeps {A X} (part : World -> X) (m : M A) : Prop :=
  forall w, part (snd (m w)) = part w.

(** A computation that sends at most [n] requests to the model, and
    forgets none that was sent before. *)
Definition calls_at_most {R} (n : nat) (m : World -> R * World) : Prop :=
  forall w,
    exists sent,
      model_calls (snd (m w)) = model_calls w ++ sent /\
      (length sent <= n)%nat.

(** A computation that changes the stores only when it ends with a
    value, and then with one that satisfies [ok]. *)
Definition writes_on_value {A} (ok : A -> Prop) (m : M A) : Prop :=
  forall w,
    (exists a, fst (m w) = Val a /\ ok a) \/ stores (snd (m w)) = stores w.

(** The handlers that only read. *)
Inductive reader : Type :=
| ReadSummary | ReadFlashcards | ReadQuiz | ReadChatHistory | ReadDocument
| ListDocuments | ListFlashcards | ListQuizzes.

Definition reader_handler (E : Env) (r : reader)
  : pyval -> World -> response * World :=
  match r with
  | ReadSummary => get_summary E
  | ReadFlashcards => get_flashcards E
  | ReadQuiz => get_quiz E
  | ReadChatHistory => get_chat_history E
  | ReadDocument => get_document E
  | ListDocuments => list_documents E
  | ListFlashcards => list_flashcards E
  | ListQuizzes => list_quizzes E
  end.

(** The handlers that ask the model and store what it answers, and
    the status each answers with when it has stored. *)
Inductive writer : Type :=
| WriteSummary | WriteFlashcards | WriteQuiz | WriteAttempt | WriteChat.

Definition writer_handler (E : Env) (x : writer)
  : pyval -> World -> response * World :=
  match x with
  | WriteSummary => summarize_document E
  | WriteFlashcards => create_flashcards E
  | WriteQuiz => create_quiz E
  | WriteAttempt => submit_quiz E
  | WriteChat => chat_with_document E
  end.

Definition stored_status (x : writer) : Z :=
  match x with
  | WriteFlashcards | WriteQuiz => 201
  | _ => 200
  end.

(** *** The detail of a graded submission *)

(** The index a detail entry carries, and whether it is marked correct. *)
Definition question_index (detail : pyval) : option pyval :=
  match detail with
  | VDict kv => dict_get "question_index" kv
  | _ => None
  end.

Definition marked_correct (detail : pyval) : bool :=
  match detail with
  | VDict kv =>
      match dict_get "is_correct" kv with
      | Some (VBool b) => b
      | _ => false
      end
  | _ => false
  end.

(** *** The owner check, read backwards *)

(** A computation whose early answers are all refusals: a status of
    400 or more. *)
Definition refuses_early {A} (m : M A) : Prop :=
  forall w r w', m w = (Return r, w') -> 400 <= statusCode r.

(** A computation that ends with a value only in a world that
    satisfies [allowed], and whose early answers are refusals. *)
Definition guarded {A} (allowed : World -> Prop) (m : M A) : Prop :=
  forall w,
    match fst (m w) with
    | Val _ => allowed w
    | Return r => 400 <= statusCode r
    | Raised _ => True
    end.

(** The entity named by [key] is stored and belongs to [user_id]. *)
Definition belongs_to (table : World -> gmap string dict) (key user_id : pyval)
    (w : World) : Prop :=
  exists id item,
    key = VStr id /\ table w !! id = Some item /\
    missing (Some item) = false /\
    py_eq (item_get item "userId") user_id = true.

(** *** Stored items *)

(** The item is held by the table, under some key. *)
Definition stored_in (table : gmap string dict) (item : dict) : Prop :=
  exists key, table !! key = Some item.

(** The attempts a stored quiz holds, when [list_append] accepts
    them: none when the attribute is absent. *)
Definition stored_attempts (quiz : dict) : option (list pyval) :=
  match dict_get "attempts" quiz with
  | None => Some []
  | Some (VList l) => Some l
  | Some _ => None
  end.

(** An upload request that carries a file or a text: the decoded
    file [content] with the text [t] extracted from it, or the text
    [t] itself with its encoding. *)
Definition uploads (U : UploadEnv) (b : dict) (name : string)
    (content : bytes) (t : string) : Prop :=
  (exists s,
     item_get b "file" = VStr s /\ s <> "" /\ b64decode U s = Ok content /\
     extract_text_from_file (upload_base U) content name default_max_chars
     = Ok t) \/
  (truthy (item_get b "file") = false /\ item_get b "content" = VStr t /\
   t <> "" /\ content = encode_utf8 t).

(** [body.get('fileName') or body.get('filename', 'document.txt')] and
    [body.get('fileType') or body.get('contentType', 'text/plain')] *)
Definition upload_name (b : dict) : pyval :=
  py_or (item_get b "fileName") (item_get_or b "filename" (VStr "document.txt")).

Definition upload_type (b : dict) : pyval :=
  py_or (item_get b "fileType") (item_get_or b "contentType" (VStr "text/plain")).

(** The key of the blob of an upload. *)
Definition upload_key (E : Env) (user_id : pyval) (w : World) (name : string)
  : string :=
  "users/" +:+ py_str E user_id +:+ "/documents/" +:+ uuid4 E (ids_drawn w)
  +:+ "/" +:+ name.

(** ** A small environment and world, for running the handlers *)

Definition sample_question (question : string) (correct : Z) : pyval :=
  VDict [ ("question", VStr question);
          ("options", VList [VStr "A"; VStr "B"; VStr "C"; VStr "D"]);
          ("correctAnswer", VInt correct);
          ("explanation", VStr "because") ].

(** What the model returns when it follows [QUIZ_PROMPT]. *)
Definition sample_questions : list pyval :=
  [ sample_question "q0" 0; sample_question "q1" 1; sample_question "q2" 2 ].

Definition sample_completion : string :=
  fenced "json" "" (String newline "") "[sample]" (String newline "") "".

Definition sample_reply : http_response :=
  {| status_code := 200;
     response_json :=
       Ok (VDict [ ("candidates",
                    VList [VDict [("content",
                                   VDict [("parts",
                                           VList [VDict [("text", VStr sample_completion)]])])]]) ]);
     response_text := "" |}.

Definition sample_env : Env :=
  {| json_loads := fun s =>
       if String.eqb s "[sample]" then Ok (VList sample_questions)
       else Raise JSONDecodeError;
     str_exn := fun e =>
       match e with
       | KeyError (VStr k) => "'" +:+ k +:+ "'"
       | _ => "error"
       end;
     repr := fun _ => "value";
     uuid4 := str_of_nat;
     utcnow_isoformat := fun n => "2024-01-01T00:00:0" +:+ str_of_nat n;
     GEMINI_API_KEY := "key";
     requests_post := fun _ _ _ => Ok sample_reply;
     pdf_pages := fun _ => Some [PageText "ab"; PageText "cd"];
     docx_paragraphs := fun _ => Some ["ab"; "cd"];
     decode_utf8 := fun _ => Some "abcdef";
     SUMMARIZE_PROMPT := fun content _ => "summarize " +:+ content;
     FLASHCARDS_PROMPT := fun content n _ => n +:+ " cards " +:+ content;
     QUIZ_PROMPT := fun content n _ _ => n +:+ " questions " +:+ content;
     CHAT_SYSTEM_PROMPT := fun content => "document " +:+ content;
     chat_user_prompt := fun question _ => question;
     EXPLAIN_PROMPT := fun t _ => "explain " +:+ t;
     level_eli5 := "simple";
     level_beginner := "beginner";
     level_intermediate := "intermediate";
     level_expert := "expert" |}.

Definition sample_document : dict :=
  [ ("documentId", VStr "doc-1"); ("userId", VStr "alice");
    ("fileName", VStr "bio.txt"); ("s3Key", VStr "users/alice/bio.txt");
    ("extractedText", VStr "The mitochondria is the powerhouse of the cell.");
    ("status", VStr "active") ].

Definition graded_question (correct : Z) : pyval :=
  VDict [ ("question", VStr "q");
          ("options", VList [VStr "A"; VStr "B"; VStr "C"; VStr "D"]);
          ("correct_answer", VInt correct);
          ("explanation", VStr "because") ].

Definition sample_quiz : dict :=
  [ ("quizId", VStr "quiz-1"); ("documentId", VStr "doc-1");
    ("userId", VStr "alice"); ("title", VStr "Quiz");
    ("questions", VList [graded_question 0; graded_question 1; graded_question 2]);
    ("questionCount", VInt 3); ("attempts", VList []) ].

Definition sample_turn (id owner stamp : string) : chat_message :=
  {| chatId := id; chat_documentId := "doc-1"; chat_userId := VStr owner;
     userMessage := VStr "why?"; assistantResponse := VStr "because";
     createdAt := stamp |}.

Definition sample_world : World :=
  {| documents := {[ "doc-1" := sample_document ]};
     summaries := ∅;
     flashcards := ∅;
     quizzes := {[ "quiz-1" := sample_quiz ]};
     chat_history :=
       [ sample_turn "chat-a" "alice" "2024-01-01T00:00:01Z";
         sample_turn "chat-b" "bob" "2024-01-01T00:00:02Z";
         sample_turn "chat-c" "alice" "2024-01-01T00:00:03Z" ];
     s3_objects := ∅;
     ids_drawn := 0;
     clock_reads := 0;
     model_calls := [] |}.

Definition sample_event (user : string) (parameters : dict) (b : pyval)
  : pyval :=
  VDict [ ("requestContext",
           VDict [("authorizer", VDict [("claims", VDict [("sub", VStr user)])])]);
          ("pathParameters", VDict parameters);
          ("body", b) ].

(** A text of [n] characters. *)
Definition long_text (n : Z) : string :=
  text (repeat "a"%char (Z.to_nat n)).


(** The sample environment with a base64 decoder that knows one file. *)
Definition sample_upload_env : UploadEnv :=
  {| upload_base := sample_env;
     b64decode := fun s =>
       if String.eqb s "YWJjZGVm" then Ok (encode_utf8 "abcdef")
       else Raise (ValueError "Incorrect padding") |}.

(** A request that carries no identity. *)
Definition anonymous_event (parameters : dict) (b : pyval) : pyval :=
  VDict [("pathParameters", VDict parameters); ("body", b)].

(** * Properties *)

(** ** Text *)

Lemma chars_text l : chars (text l) = l.
Proof. apply list_ascii_of_string_of_list_ascii. Qed.

Lemma text_chars s : text (chars s) = s.
Proof. apply string_of_list_ascii_of_string. Qed.

Lemma chars_app s t : chars (s +:+ t) = chars s ++ chars t.
Proof. induction s as [|c s IH]; simpl; [reflexivity|]. unfold chars in *. simpl. by rewrite IH. Qed.

Lemma length_chars s : length (chars s) = String.length s.
Proof. induction s as [|c s IH]; simpl; [reflexivity|]. unfold chars in *. simpl. by rewrite IH. Qed.

Lemma length_text l : String.length (text l) = length l.
Proof. by rewrite <- length_chars, chars_text. Qed.

Lemma lstrip_spaces ws l :
  forallb is_space ws = true -> lstrip_chars (ws ++ l) = lstrip_chars l.
Proof.
  induction ws as [|c ws IH]; simpl; [done|].
  intros [Hc Hws]%andb_true_iff. rewrite Hc. auto.
Qed.

Lemma lstrip_solid c l : is_space c = false -> lstrip_chars (c :: l) = c :: l.
Proof. intros H. simpl. by rewrite H. Qed.

Lemma forallb_rev {A} (f : A -> bool) l : forallb f (rev l) = forallb f l.
Proof.
  induction l as [|x l IH]; simpl; [done|].
  rewrite forallb_app, IH. simpl. rewrite andb_true_r. apply andb_comm.
Qed.

Lemma rstrip_spaces l ws :
  forallb is_space ws = true -> rstrip_chars (l ++ ws) = rstrip_chars l.
Proof.
  intros H. unfold rstrip_chars. rewrite rev_app_distr.
  rewrite lstrip_spaces; [done|]. by rewrite forallb_rev.
Qed.

Lemma rstrip_solid l c : is_space c = false -> rstrip_chars (l ++ [c]) = l ++ [c].
Proof.
  intros H. unfold rstrip_chars. rewrite rev_app_distr. simpl.
  rewrite H. simpl. by rewrite rev_involutive.
Qed.

Lemma lstrip_split l :
  exists ws, forallb is_space ws = true /\ l = ws ++ lstrip_chars l.
Proof.
  induction l as [|c l [ws [Hws Hl]]]; [by exists []|].
  simpl. destruct (is_space c) eqn:Hc.
  - exists (c :: ws). simpl. rewrite Hc, Hws. split; [done|]. by rewrite <- Hl.
  - by exists [].
Qed.

Lemma rstrip_split l :
  exists ws, forallb is_space ws = true /\ l = rstrip_chars l ++ ws.
Proof.
  destruct (lstrip_split (rev l)) as [ws [Hws Hl]].
  exists (rev ws). rewrite forallb_rev. split; [done|].
  unfold rstrip_chars. rewrite <- rev_app_distr, <- Hl. by rewrite rev_involutive.
Qed.

Lemma lstrip_head l c r : lstrip_chars l = c :: r -> is_space c = false.
Proof.
  induction l as [|d l IH]; simpl; [done|].
  destruct (is_space d) eqn:Hd; [done|]. intros [= <- _]. done.
Qed.

(** ** The fence removal of the structured completion *)

Lemma chars_strip s : chars (strip s) = rstrip_chars (lstrip_chars (chars s)).
Proof. unfold strip. apply chars_text. Qed.

Lemma strip_core ws1 c r r' d ws2 :
  forallb is_space ws1 = true -> forallb is_space ws2 = true ->
  is_space c = false -> is_space d = false -> c :: r = r' ++ [d] ->
  rstrip_chars (lstrip_chars (ws1 ++ (c :: r) ++ ws2)) = c :: r.
Proof.
  intros H1 H2 Hc Hd Heq. rewrite lstrip_spaces by done.
  change ((c :: r) ++ ws2) with (c :: (r ++ ws2)). rewrite lstrip_solid by done.
  change (c :: r ++ ws2) with ((c :: r) ++ ws2). rewrite rstrip_spaces by done.
  rewrite Heq. by apply rstrip_solid.
Qed.

Lemma strip_split l :
  exists a b, forallb is_space a = true /\ forallb is_space b = true /\
    l = a ++ rstrip_chars (lstrip_chars l) ++ b.
Proof.
  destruct (lstrip_split l) as [a [Ha Hl]].
  destruct (rstrip_split (lstrip_chars l)) as [b [Hb Hr]].
  exists a, b. split; [done|]. split; [done|]. by rewrite <- Hr.
Qed.

Lemma is_prefix_app p l : is_prefix p (p ++ l) = true.
Proof. induction p as [|c p IH]; simpl; [done|]. by rewrite Ascii.eqb_refl. Qed.

Lemma is_prefix_app_both p q l : is_prefix (p ++ q) (p ++ l) = is_prefix q l.
Proof. induction p as [|c p IH]; simpl; [done|]. by rewrite Ascii.eqb_refl. Qed.

Lemma is_prefix_differs c d p l :
  Ascii.eqb c d = false -> is_prefix (c :: p) (d :: l) = false.
Proof. intros H. cbn [is_prefix]. by rewrite H. Qed.

Lemma json_opens_solid c : json_opens c = true -> is_space c = false.
Proof. destruct c as [[] [] [] [] [] [] [] []]; vm_compute; congruence. Qed.

Lemma json_closes_solid c : json_closes c = true -> is_space c = false.
Proof. destruct c as [[] [] [] [] [] [] [] []]; vm_compute; congruence. Qed.

Lemma json_opens_not_fence c : json_opens c = true -> Ascii.eqb backtick c = false.
Proof. destruct c as [[] [] [] [] [] [] [] []]; vm_compute; congruence. Qed.

Lemma json_closes_not_fence c : json_closes c = true -> Ascii.eqb backtick c = false.
Proof. destruct c as [[] [] [] [] [] [] [] []]; vm_compute; congruence. Qed.

Lemma json_opens_not_j c : json_opens c = true -> Ascii.eqb "j" c = false.
Proof. destruct c as [[] [] [] [] [] [] [] []]; vm_compute; congruence. Qed.

Lemma space_not_j c : is_space c = true -> Ascii.eqb "j" c = false.
Proof. destruct c as [[] [] [] [] [] [] [] []]; vm_compute; congruence. Qed.

(** What [looks_like_json] says of the characters. *)
Lemma looks_like_json_inv s :
  looks_like_json s = true ->
  exists c r r' d, chars s = c :: r /\ c :: r = r' ++ [d] /\
    json_opens c = true /\ json_closes d = true.
Proof.
  unfold looks_like_json. intros [H1 H2]%andb_true_iff.
  destruct (chars s) as [|c r] eqn:Hs; [done|].
  destruct (rev (c :: r)) as [|d t] eqn:Hr; [done|].
  exists c, r, (rev t), d. repeat split; try done.
  rewrite <- (rev_involutive (c :: r)), Hr. reflexivity.
Qed.

Lemma unfence_tagged mid :
  strip_code_fence (text (fence ++ chars "json" ++ mid ++ fence)) = text mid.
Proof.
  unfold strip_code_fence.
  assert (startswith "```json" (text (fence ++ chars "json" ++ mid ++ fence)) = true) as ->.
  { unfold startswith. rewrite chars_text.
    change (fence ++ chars "json" ++ mid ++ fence)
      with (chars "```json" ++ mid ++ fence). apply is_prefix_app. }
  rewrite chars_text. change (slice_from (fence ++ chars "json" ++ mid ++ fence) 7) with (mid ++ fence).
  assert (endswith "```" (text (mid ++ fence)) = true) as ->.
  { unfold endswith. rewrite chars_text, rev_app_distr. apply is_prefix_app. }
  unfold str_slice_to, slice_to. rewrite chars_text. simpl (0 <=? -3).
  cbv iota. f_equal. rewrite length_app. simpl length.
  replace (Z.to_nat (Z.of_nat (length mid + 3) + -3)) with (length mid) by lia.
 
  apply take_app_length.
Qed.

Lemma unfence_bare x mid :
  Ascii.eqb "j" x = false ->
  strip_code_fence (text (fence ++ (x :: mid) ++ fence)) = text (x :: mid).
Proof.
  intros Hx. unfold strip_code_fence.
  assert (startswith "```json" (text (fence ++ (x :: mid) ++ fence)) = false) as ->.
  { unfold startswith. rewrite chars_text.
    change (chars "```json") with (fence ++ "j"%char :: chars "son").
    rewrite is_prefix_app_both. by apply is_prefix_differs. }
  assert (startswith "```" (text (fence ++ (x :: mid) ++ fence)) = true) as ->.
  { unfold startswith. rewrite chars_text. apply (is_prefix_app fence). }
  rewrite chars_text.
  change (slice_from (fence ++ (x :: mid) ++ fence) 3) with ((x :: mid) ++ fence).
  assert (endswith "```" (text ((x :: mid) ++ fence)) = true) as ->.
  { unfold endswith. rewrite chars_text, rev_app_distr. apply is_prefix_app. }
  unfold str_slice_to, slice_to. rewrite chars_text. simpl (0 <=? -3).
  cbv iota. f_equal. rewrite length_app. simpl length.
  replace (Z.to_nat (Z.of_nat (S (length mid) + 3) + -3)) with (length (x :: mid)) by (simpl; lia).
  apply take_app_length.
Qed.

Lemma unfence_plain s :
  looks_like_json s = true -> strip_code_fence s = s.
Proof.
  intros (c & r & r' & d & Hs & Hr & Hc & Hd)%looks_like_json_inv.
  unfold strip_code_fence.
  assert (startswith "```json" s = false) as ->.
  { unfold startswith. rewrite Hs. apply is_prefix_differs.
    by apply json_opens_not_fence. }
  assert (startswith "```" s = false) as ->.
  { unfold startswith. rewrite Hs. apply is_prefix_differs.
    by apply json_opens_not_fence. }
  assert (endswith "```" s = false) as ->; [|done].
  unfold endswith. rewrite Hs, Hr, rev_app_distr.
  apply is_prefix_differs. by apply json_closes_not_fence.
Qed.

Lemma backtick_solid : is_space backtick = false.
Proof. reflexivity. Qed.

Lemma chars_fenced tag ws1 ws2 ws3 ws4 payload :
  chars (fenced tag ws1 ws2 ws3 ws4 payload) =
  chars ws1 ++ (fence ++ chars tag ++ (chars ws2 ++ chars payload ++ chars ws3) ++ fence)
    ++ chars ws4.
Proof.
  unfold fenced. rewrite !chars_app. change (chars "```") with fence.
  by rewrite <- !app_assoc.
Qed.

Lemma strip_fenced tag ws1 ws2 ws3 ws4 payload :
  whitespace ws1 = true -> whitespace ws4 = true ->
  strip (fenced tag ws1 ws2 ws3 ws4 payload) =
  text (fence ++ chars tag ++ (chars ws2 ++ chars payload ++ chars ws3) ++ fence).
Proof.
  intros H1 H4. unfold strip. f_equal. rewrite chars_fenced.
  set (mid := chars ws2 ++ chars payload ++ chars ws3).
  change (fence ++ chars tag ++ mid ++ fence)
    with (backtick :: [backtick; backtick] ++ chars tag ++ mid ++ fence).
  apply strip_core
    with (r' := ([backtick; backtick; backtick] ++ chars tag ++ mid)
                  ++ [backtick; backtick]) (d := backtick); try done.
  unfold fence. rewrite <- !app_assoc. reflexivity.
Qed.

(** Whitespace around a payload does not change what [strip] leaves. *)
Lemma strip_padded ws2 ws3 payload :
  whitespace ws2 = true -> whitespace ws3 = true ->
  looks_like_json (strip payload) = true ->
  strip (text (chars ws2 ++ chars payload ++ chars ws3)) = strip payload.
Proof.
  intros H2 H3 (c & r & r' & d & Hs & Hr & Hc & Hd)%looks_like_json_inv.
  unfold whitespace in *. rewrite chars_strip in Hs.
  destruct (strip_split (chars payload)) as (a & b & Ha & Hb & Hp).
  unfold strip at 1. rewrite chars_text. rewrite <- (text_chars (strip payload)).
  f_equal. rewrite chars_strip, Hs. rewrite Hp, Hs.
  replace (chars ws2 ++ (a ++ (c :: r) ++ b) ++ chars ws3)
    with ((chars ws2 ++ a) ++ (c :: r) ++ (b ++ chars ws3))
    by (by rewrite <- !app_assoc).
  apply (strip_core _ c r r' d); try done.
  - rewrite forallb_app. by rewrite H2, Ha.
  - rewrite forallb_app. by rewrite Hb, H3.
  - by apply json_opens_solid.
  - by apply json_closes_solid.
Qed.

(** The first character inside a bare fence is never the [j] of a tag. *)
Lemma padded_head ws2 ws3 payload :
  whitespace ws2 = true ->
  looks_like_json (strip payload) = true ->
  exists x mid, chars ws2 ++ chars payload ++ chars ws3 = x :: mid /\
    Ascii.eqb "j" x = false.
Proof.
  intros H2 (c & r & r' & d & Hs & Hr & Hc & Hd)%looks_like_json_inv.
  unfold whitespace in *. rewrite chars_strip in Hs.
  destruct (strip_split (chars payload)) as (a & b & Ha & Hb & Hp).
  rewrite Hp, Hs.
  destruct (chars ws2 ++ a) as [|x l] eqn:Hl.
  - apply app_eq_nil in Hl as [-> ->]. simpl. eexists _, _. split; [done|].
    by apply json_opens_not_j.
  - assert (is_space x = true) as Hx.
    { assert (forallb is_space (chars ws2 ++ a) = true) as Hall
        by (rewrite forallb_app; by rewrite H2, Ha).
      rewrite Hl in Hall. simpl in Hall. by apply andb_true_iff in Hall as [? _]. }
    replace (chars ws2 ++ (a ++ (c :: r) ++ b) ++ chars ws3)
      with ((chars ws2 ++ a) ++ (c :: r) ++ b ++ chars ws3)
      by (by rewrite <- !app_assoc).
    rewrite Hl. simpl. eexists _, _. split; [done|]. by apply space_not_j.
Qed.

(** C6. A payload that is a JSON text decodes to the same value
    whether the model returns it as it is, inside a [```json] fence or
    inside a bare [```] fence, with any whitespace around the fence
    and around the payload: each of the three is [json.loads] of the
    stripped payload. *)
Theorem fenced_decodes_as_plain (E : Env) (payload ws1 ws2 ws3 ws4 : string) :
  looks_like_json (strip payload) = true ->
  whitespace ws1 = true -> whitespace ws2 = true ->
  whitespace ws3 = true -> whitespace ws4 = true ->
  decode_completion E (VStr (fenced "json" ws1 ws2 ws3 ws4 payload))
    = decode_completion E (VStr payload) /\
  decode_completion E (VStr (fenced "" ws1 ws2 ws3 ws4 payload))
    = decode_completion E (VStr payload) /\
  decode_completion E (VStr payload) = json_loads E (strip payload).
Proof.
  intros Hj H1 H2 H3 H4.
  assert (decode_completion E (VStr payload) = json_loads E (strip payload)) as Hplain.
  { unfold decode_completion. rewrite (unfence_plain _ Hj).
    f_equal. unfold strip at 1. rewrite chars_strip.
    destruct (looks_like_json_inv _ Hj) as (c & r & r' & d & Hs & Hr & Hc & Hd).
    rewrite chars_strip in Hs. rewrite Hs.
    rewrite <- (text_chars (strip payload)), chars_strip, Hs. f_equal.
    rewrite <- (app_nil_r (c :: r)) at 1.
    apply (strip_core [] c r r' d []); try done.
    - by apply json_opens_solid.
    - by apply json_closes_solid. }
  rewrite Hplain. repeat split.
  - unfold decode_completion. rewrite strip_fenced by done.
    rewrite unfence_tagged. by rewrite strip_padded.
  - unfold decode_completion. rewrite strip_fenced by done.
    destruct (padded_head ws2 ws3 payload H2 Hj) as (x & mid & Hmid & Hx).
    change (chars "") with (@nil ascii). rewrite app_nil_l.
    rewrite Hmid, (unfence_bare x mid Hx), <- Hmid. by rewrite strip_padded.
Qed.

Lemma fenced_decodes_as_plain_witness :
  looks_like_json (strip "[sample]") = true /\
  decode_completion sample_env (VStr sample_completion)
    = decode_completion sample_env (VStr "[sample]").
Proof.
  split; [reflexivity|].
  apply (fenced_decodes_as_plain sample_env "[sample]" "" (String newline "")
           (String newline "") ""); reflexivity.
Defined.

(** ** Text extraction *)

Lemma len_text l : len (text l) = Z.of_nat (length l).
Proof. unfold len. by rewrite length_text. Qed.

Lemma len_nonneg s : 0 <= len s.
Proof. unfold len. lia. Qed.

Lemma len_str_slice_to t k : 0 <= k -> len (str_slice_to t k) <= k.
Proof.
  intros Hk. unfold str_slice_to, slice_to. rewrite len_text.
  destruct (0 <=? k) eqn:H; [|lia]. rewrite length_take. lia.
Qed.

(** The plain-text and DOCX paths cut the text they return. *)
Lemma truncate_bound t max_chars :
  0 <= max_chars -> len (truncate t max_chars) <= max_chars.
Proof.
  intros Hm. unfold truncate. destruct (max_chars <? len t) eqn:H.
  - by apply len_str_slice_to.
  - lia.
Qed.

Lemma docx_bound E content max_chars :
  0 <= max_chars -> len (extract_text_from_docx E content max_chars) <= max_chars.
Proof.
  intros Hm. unfold extract_text_from_docx.
  destruct (docx_paragraphs E content); [by apply truncate_bound | done].
Qed.

(** A file name with none of the known extensions gives the empty text. *)
Lemma unknown_extension_empty E content file_name max_chars :
  extension file_name <> "pdf" -> extension file_name <> "docx" ->
  extension file_name <> "doc" -> extension file_name <> "txt" ->
  extension file_name <> "text" ->
  extract_text_from_file E content file_name max_chars = Ok "".
Proof.
  intros H1 H2 H3 H4 H5. unfold extract_text_from_file.
  apply String.eqb_neq in H1, H2, H3, H4, H5.
  by rewrite H1, H2, H3, H4, H5.
Qed.

(** The DOCX and the plain-text extensions respect the bound. *)
Lemma docx_txt_bound E content file_name max_chars t :
  0 <= max_chars -> extension file_name <> "pdf" ->
  extract_text_from_file E content file_name max_chars = Ok t ->
  len t <= max_chars.
Proof.
  intros Hm Hpdf. unfold extract_text_from_file.
  apply String.eqb_neq in Hpdf. rewrite Hpdf.
  destruct (_ || _).
  - intros [= <-]. by apply docx_bound.
  - destruct (_ || _).
    + destruct (decode_utf8 E content); [|done].
      intros [= <-]. by apply truncate_bound.
    + intros [= <-]. done.
Qed.

Lemma total_len_app a b : total_len (a ++ b) = total_len a + total_len b.
Proof. induction a as [|x a IH]; simpl; [done|]. rewrite IH. lia. Qed.

(** The page loop counts the characters of the pages and not the
    separators: the texts it keeps have at most [max_chars] characters
    together. *)
Lemma pdf_page_loop_total pages max_chars :
  forall acc total parts,
    0 <= max_chars -> total = total_len acc -> total <= max_chars ->
    pdf_page_loop pages max_chars acc total = Some parts ->
    total_len parts <= max_chars.
Proof.
  induction pages as [|p pages IH]; intros acc total parts Hm Ht Hle; simpl.
  - intros [= <-]. lia.
  - destruct (page_extract_text p) as [t|]; [|done].
    destruct (max_chars <? total + len t) eqn:Hcut.
    + intros [= <-]. rewrite total_len_app. simpl.
      pose proof (len_str_slice_to t (max_chars - total)). lia.
    + apply IH; [done| |lia]. rewrite total_len_app. simpl. lia.
Qed.

Lemma len_append a b : len (a +:+ b) = len a + len b.
Proof.
  unfold len. rewrite <- !length_chars, chars_app, length_app. lia.
Qed.

Lemma len_String c s : len (String c s) = 1 + len s.
Proof. unfold len. simpl String.length. lia. Qed.

(** The joined text has one more character for every separator. *)
Lemma len_join_lines parts :
  len (join_lines parts)
  = total_len parts + Z.max 0 (Z.of_nat (length parts) - 1).
Proof.
  induction parts as [|p [|q rest] IH].
  - reflexivity.
  - simpl. lia.
  - change (join_lines (p :: q :: rest))
      with (p +:+ String newline (join_lines (q :: rest))).
    rewrite len_append, len_String, IH.
    change (total_len (p :: q :: rest)) with (len p + total_len (q :: rest)).
    change (length (p :: q :: rest)) with (S (length (q :: rest))).
    simpl length. lia.
Qed.

(** What the PDF path does guarantee: the bound, plus one character
    for every separator. *)
Lemma pdf_bound E content max_chars :
  0 <= max_chars ->
  exists separators : nat,
    len (extract_text_from_pdf E content max_chars)
    <= max_chars + Z.of_nat separators.
Proof.
  intros Hm. unfold extract_text_from_pdf.
  destruct (pdf_pages E content) as [pages|]; [|exists 0%nat; change (len "") with 0; lia].
  destruct (pdf_page_loop pages max_chars [] 0) as [parts|] eqn:Hloop;
    [|exists 0%nat; change (len "") with 0; lia].
  exists (Z.to_nat (Z.max 0 (Z.of_nat (length parts) - 1))).
  rewrite len_join_lines.
  pose proof (pdf_page_loop_total pages max_chars [] 0 parts Hm eq_refl Hm Hloop).
  lia.
Qed.

Example extension_ignores_case : extension "Notes.PDF" = "pdf".
Proof. reflexivity. Qed.

(** C2. The PDF path of [extract_text_from_file] returns more than
    [max_chars] characters: two pages of two characters each, under
    a bound of four, come back as five characters, because the
    newline that joins the pages is not counted. *)
Theorem pdf_text_exceeds_max_chars :
  pdf_pages sample_env [] = Some [PageText "ab"; PageText "cd"] /\
  extract_text_from_file sample_env [] "notes.pdf" 4
    = Ok ("ab" +:+ String newline "cd") /\
  len ("ab" +:+ String newline "cd") = 5.
Proof. repeat split. Qed.

(** ** Grading *)

(** One turn of the loop on a question that stores a correct index. *)
Lemma grade_step answers q c idx :
  answers_are_indices answers -> correct_index q = Some c ->
  py_get (VDict answers) (str_of_nat idx) VNone
    = Ok (item_get answers (str_of_nat idx)) /\
  getitem q "correct_answer" = Ok (VInt c) /\
  py_eq (item_get answers (str_of_nat idx)) (VInt c)
    = answer_matches answers idx q /\
  py_get q "explanation" (VStr "") = Ok (stored_explanation q).
Proof.
  intros Ha Hq. destruct q as [| | | | | |kv]; try done.
  unfold correct_index in Hq.
  destruct (dict_get "correct_answer" kv) as [[| |z| | | |]|] eqn:Hc; try done.
  injection Hq as ->.
  repeat split.
  - unfold getitem. by rewrite Hc.
  - unfold answer_matches, correct_index, item_get, item_get_or. rewrite Hc.
    destruct (dict_get (str_of_nat idx) answers) as [v|] eqn:Hv; [|done].
    destruct (Ha _ _ Hv) as [a ->]. done.
Qed.

Lemma grade_loop_spec answers qs :
  answers_are_indices answers ->
  Forall (fun q => is_Some (correct_index q)) qs ->
  forall idx correct results,
    grade_loop qs (VDict answers) idx correct results
    = Ok ((correct + matching_from answers idx qs)%nat,
          results ++ spec_details_from answers idx qs).
Proof.
  intros Ha Hqs. induction Hqs as [|q qs [c Hq] _ IH]; intros idx correct results.
  - simpl. by rewrite Nat.add_0_r, app_nil_r.
  - destruct (grade_step answers q c idx Ha Hq) as (H1 & H2 & H3 & H4).
    cbn [grade_loop]. rewrite H1. cbn [rbind]. rewrite H2. cbn [rbind].
    rewrite H4. cbn [rbind]. rewrite IH, H3.
    cbn [matching_from spec_details_from]. unfold spec_detail. rewrite Hq.
    rewrite <- app_assoc. cbn [app].
    destruct (answer_matches answers idx q); do 2 f_equal; lia.
Qed.

(** C1. For stored questions that each carry an integer
    [correct_answer], and an answers map from string-encoded question
    indices to option indices, grading succeeds; the score is the
    number of indices whose submitted answer is present and equals
    the stored correct index; the percentage is
    [round(score / n * 100, 1)] for [n > 0] and [0] for [n = 0]; the
    quiz is passed exactly when the percentage is at least 60; and
    the detail lists, per question, the submitted answer, the stored
    correct answer, the match and the stored explanation. *)
Theorem grading_rule (qs : list pyval) (answers : dict) :
  Forall (fun q => is_Some (correct_index q)) qs ->
  answers_are_indices answers ->
  exists g,
    grade_quiz (VList qs) (VDict answers) = Ok g /\
    score g = spec_score answers qs /\
    totalQuestions g = length qs /\
    percentage g
      = (if (length qs =? 0)%nat then VInt 0
         else VFloat (spec_percentage (spec_score answers qs) (length qs))) /\
    passed g = py_ge_int (percentage g) 60 /\
    results g = spec_details_from answers 0 qs.
Proof.
  intros Hqs Ha. unfold grade_quiz. cbn [py_len py_iter rbind].
  rewrite (grade_loop_spec answers qs Ha Hqs). cbn [rbind fst snd].
  eexists. split; [reflexivity|]. cbn [score totalQuestions percentage passed results].
  repeat split. unfold percentage_of, spec_score.
  destruct (length qs) as [|n]; reflexivity.
Qed.

Lemma grading_rule_witness :
  exists g,
    grade_quiz
      (VList [graded_question 0; graded_question 1; graded_question 2])
      (VDict [("0", VInt 0); ("1", VInt 1)]) = Ok g /\
    score g = 2%nat /\ passed g = true.
Proof.
  destruct (grading_rule
              [graded_question 0; graded_question 1; graded_question 2]
              [("0", VInt 0); ("1", VInt 1)]) as (g & Hg & Hs & _ & _ & Hp & _).
  - repeat constructor; by eexists.
  - intros k v. cbn [dict_get].
    destruct (String.eqb k "0"); [intros [= <-]; by eexists|].
    destruct (String.eqb k "1"); [intros [= <-]; by eexists|]. done.
  - exists g. split; [exact Hg|]. split; [exact Hs|].
    revert Hg. vm_compute. intros [= <-]. reflexivity.
Defined.

(** A missing answer never matches. *)
Lemma missing_answer_no_match answers i q :
  dict_get (str_of_nat i) answers = None -> answer_matches answers i q = false.
Proof. intros H. unfold answer_matches. by rewrite H. Qed.

(** The percentage of an empty quiz is the integer 0. *)
Lemma percentage_of_empty correct : percentage_of correct 0 = VInt 0.
Proof. reflexivity. Qed.

Example percentage_7_of_10 : percentage_of 7 10 = tenths 700.
Proof. vm_compute. reflexivity. Qed.

Example percentage_1_of_3 : percentage_of 1 3 = tenths 333.
Proof. vm_compute. reflexivity. Qed.

Example passed_at_60 : py_ge_int (percentage_of 6 10) 60 = true.
Proof. vm_compute. reflexivity. Qed.

Example failed_at_59_9 :
  percentage_of 599 1000 = tenths 599 /\
  py_ge_int (percentage_of 599 1000) 60 = false.
Proof. split; vm_compute; reflexivity. Qed.

(** ** Running a handler and the owner check *)

Lemma bind_val {A B} (m : M A) (f : A -> M B) w a w1 :
  m w = (Val a, w1) -> bind m f w = f a w1.
Proof. intros H. unfold bind. by rewrite H. Qed.


Lemma bind_raised {A B} (m : M A) (f : A -> M B) w e w1 :
  m w = (Raised e, w1) -> bind m f w = (Raised e, w1).
Proof. intros H. unfold bind. by rewrite H. Qed.

Lemma bind_lift {A B} (r : result A) (f : A -> M B) w a :
  r = Ok a -> bind (lift r) f w = f a w.
Proof. intros ->. reflexivity. Qed.

Lemma bind_ret {A B} (a : A) (f : A -> M B) w : bind (ret a) f w = f a w.
Proof. reflexivity. Qed.

Lemma py_get_dict kv k d : py_get (VDict kv) k d = Ok (item_get_or kv k d).
Proof. reflexivity. Qed.

Lemma get_document_by_id_str id w :
  get_document_by_id (VStr id) w = (Val (documents w !! id), w).
Proof. reflexivity. Qed.

Lemma get_quiz_by_id_str id w :
  get_quiz_by_id (VStr id) w = (Val (quizzes w !! id), w).
Proof. reflexivity. Qed.



Lemma check_owner_granted item what user_id w :
  missing (Some item) = false ->
  py_eq (item_get item "userId") user_id = true ->
  check_owner (Some item) what user_id w = (Val item, w).
Proof. destruct item; [done|]. intros _ H. unfold check_owner. by rewrite H. Qed.

Lemma requested_cards_dict b :
  requested_cards (VDict b)
  = Ok (py_or (item_get b "count") (py_or (item_get b "numCards") (VInt 20))).
Proof.
  unfold requested_cards, py_or. cbn [py_get rbind]. fold (item_get b "count").
  destruct (truthy (item_get b "count")); reflexivity.
Qed.

Lemma requested_questions_dict b :
  requested_questions (VDict b)
  = Ok (py_or (item_get b "questionCount")
          (py_or (item_get b "numQuestions") (VInt 10))).
Proof.
  unfold requested_questions, py_or. cbn [py_get rbind].
  fold (item_get b "questionCount").
  destruct (truthy (item_get b "questionCount")); reflexivity.
Qed.

(** The question of a chat request that carries one. *)
Lemma chat_question_read {B} b (f : pyval -> M B) w :
  bind (lift (py_get (VDict b) "question" VNone))
    (fun asked =>
       bind (if truthy asked then ret asked
             else lift (py_get (VDict b) "message" (VStr ""))) f) w
  = f (chat_question b) w.
Proof.
  rewrite (bind_lift _ _ _ _ (py_get_dict _ _ _)).
  unfold chat_question, py_or, item_get.
  destruct (truthy (item_get_or b "question" VNone)); reflexivity.
Qed.

Ltac step :=
  first
    [ rewrite bind_ret
    | rewrite chat_question_read
    | erewrite bind_lift
        by first [ eassumption | apply py_get_dict | apply requested_cards_dict
                 | apply requested_questions_dict ]
    | erewrite bind_val
        by first [ apply get_document_by_id_str | apply get_quiz_by_id_str ] ].





(** ** Creating a quiz and a flashcard set *)

Lemma slice_to_nonneg {A} (l : list A) (k : Z) :
  0 <= k -> slice_to l k = firstn (Z.to_nat k) l.
Proof. intros H. unfold slice_to. destruct (0 <=? k) eqn:Hk; [done|lia]. Qed.

(** Lines 742-744 on a decoded list and an integer count. *)
Lemma trim_questions_list qs (n : Z) :
  0 <= n ->
  trim_questions (VList qs) (VInt n)
  = Ok (VList (if n <? Z.of_nat (length qs) then firstn (Z.to_nat n) qs
               else qs)).
Proof.
  intros Hn. unfold trim_questions. cbn [int_gt rbind slice_bound].
  destruct (n <? Z.of_nat (length qs)); [|done].
  by rewrite slice_to_nonneg.
Qed.

Lemma length_trimmed {A} (qs : list A) (n : Z) :
  0 <= n ->
  Z.of_nat (length (if n <? Z.of_nat (length qs) then firstn (Z.to_nat n) qs
                    else qs))
  = Z.min n (Z.of_nat (length qs)).
Proof.
  intros Hn. destruct (n <? Z.of_nat (length qs)) eqn:H.
  - rewrite length_take. lia.
  - lia.
Qed.

Lemma save_quiz_list E document_id user_id title qs language w :
  save_quiz E document_id user_id title (VList qs) language w
  = (Val (quiz_item E w document_id user_id title (VList qs) language (length qs)),
     with_quizzes
       (<["quiz-" +:+ uuid4 E (ids_drawn w) :=
            quiz_item E w document_id user_id title (VList qs) language
              (length qs)]> (quizzes w))
       (count_clock (count_id w))).
Proof. reflexivity. Qed.

Lemma save_flashcard_set_list E document_id user_id title cs language w :
  save_flashcard_set E document_id user_id title (VList cs) language w
  = (Val (flashcard_item E w document_id user_id title (VList cs) language
            (length cs)),
     with_flashcards
       (<["fc-" +:+ uuid4 E (ids_drawn w) :=
            flashcard_item E w document_id user_id title (VList cs) language
              (length cs)]> (flashcards w))
       (count_clock (count_id w))).
Proof. reflexivity. Qed.

(** Whatever [save_quiz] is given: when it stores a quiz, the stored
    [questionCount] is [len] of the stored [questions]. *)
Lemma save_quiz_count E document_id user_id title questions language w quiz w' :
  save_quiz E document_id user_id title questions language w = (Val quiz, w') ->
  exists n,
    py_len questions = Ok n /\
    dict_get "questions" quiz = Some questions /\
    dict_get "questionCount" quiz = Some (VInt (Z.of_nat n)).
Proof.
  unfold save_quiz, generate_id, get_timestamp, bind, lift, ret, raise.
  destruct (py_len questions) as [n|e]; [|done].
  intros [= <- _]. by exists n.
Qed.

Lemma truthy_text t : t <> "" -> truthy (VStr t) = true.
Proof. intros H. cbn. by apply String.eqb_neq in H as ->. Qed.

(** C3. A quiz-creation request with a requested count [n] (an
    integer that is not negative), for a document the caller owns:
    when the model output decodes to a list of questions, the stored
    quiz holds the first [n] of them if there are more than [n] and
    all of them otherwise, never more; and the stored [questionCount]
    is the length of the stored [questions]. *)
Theorem quiz_holds_at_most_requested (E : Env) (event : pyval) (w w1 : World)
    (id : string) (b : dict) (t : string) (n : Z) (qs : list pyval) :
  path_parameter event "documentId" = Ok (VStr id) ->
  parse_body E event = Ok (VDict b) ->
  requested_questions (VDict b) = Ok (VInt n) ->
  0 <= n ->
  owned_with_text event w id t ->
  call_gpt_json E
    (QUIZ_PROMPT E (str_slice_to t 15000) (str_of_Z n)
       (py_str E (item_get_or b "language" (VStr "Vietnamese")))
       (py_str E (item_get_or b "difficulty" (VStr "medium"))))
    None 4000 w = (Val (VList qs), w1) ->
  let stored :=
    if n <? Z.of_nat (length qs) then firstn (Z.to_nat n) qs else qs in
  exists quiz_id quiz,
    create_quiz E event w
    = (create_response 201
         (VDict [ ("message", VStr "Quiz created successfully");
                  ("quiz", VDict quiz) ]),
       with_quizzes (<[quiz_id := quiz]> (quizzes w1))
         (count_clock (count_id w1))) /\
    dict_get "questions" quiz = Some (VList stored) /\
    dict_get "questionCount" quiz = Some (VInt (Z.of_nat (length stored))) /\
    Z.of_nat (length stored) = Z.min n (Z.of_nat (length qs)).
Proof.
  intros Hpath Hbody Hn Hpos (doc & Hdoc & Hsome & Howner & Htext & Ht) Hmodel
    stored.
  eexists _, _. split; [|split; [|split]].
  - unfold create_quiz, run_handler. repeat step. rewrite Hdoc.
    erewrite bind_val by (by apply check_owner_granted).
    rewrite Htext, (truthy_text t Ht). cbn [negb return_if]. rewrite bind_ret.
    erewrite bind_lift by reflexivity. cbn [py_str].
    erewrite bind_val by exact Hmodel.
    erewrite bind_lift by (by apply trim_questions_list).
    erewrite bind_val by apply save_quiz_list. reflexivity.
  - reflexivity.
  - reflexivity.
  - by apply length_trimmed.
Qed.

(** C8, as the code has it.  The count put into the flashcard prompt
    is the client's [count] when it is given and not zero, else the
    client's [numCards] when that is given and not zero, else 20;
    and when the model output decodes to a list, the stored set holds
    exactly that list, whatever its length, with [cardCount] its
    length. *)
Theorem flashcards_stored_as_decoded (E : Env) (event : pyval) (w w1 : World)
    (id : string) (b : dict) (t : string) (cs : list pyval) :
  path_parameter event "documentId" = Ok (VStr id) ->
  parse_body E event = Ok (VDict b) ->
  owned_with_text event w id t ->
  let num_cards :=
    py_or (item_get b "count") (py_or (item_get b "numCards") (VInt 20)) in
  requested_cards (VDict b) = Ok num_cards /\
  (call_gpt_json E
     (FLASHCARDS_PROMPT E (str_slice_to t 15000) (py_str E num_cards)
        (py_str E (item_get_or b "language" (VStr "Vietnamese"))))
     None 4000 w = (Val (VList cs), w1) ->
   exists set_id flashcard_set,
     create_flashcards E event w
     = (create_response 201
          (VDict [ ("message", VStr "Flashcards created successfully");
                   ("flashcardSet", VDict flashcard_set);
                   ("flashcards", VList cs) ]),
        with_flashcards (<[set_id := flashcard_set]> (flashcards w1))
          (count_clock (count_id w1))) /\
     dict_get "cards" flashcard_set = Some (VList cs) /\
     dict_get "cardCount" flashcard_set
     = Some (VInt (Z.of_nat (length cs)))).
Proof.
  intros Hpath Hbody (doc & Hdoc & Hsome & Howner & Htext & Ht) num_cards.
  split; [apply requested_cards_dict|].
  intros Hmodel. eexists _, _. split; [|split].
  - unfold create_flashcards, run_handler. repeat step. rewrite Hdoc.
    erewrite bind_val by (by apply check_owner_granted).
    rewrite Htext, (truthy_text t Ht). cbn [negb return_if]. rewrite bind_ret.
    erewrite bind_lift by reflexivity.
    erewrite bind_val by exact Hmodel.
    erewrite bind_val by apply save_flashcard_set_list. reflexivity.
  - reflexivity.
  - reflexivity.
Qed.

(** C8 as stated fails: a client count of 5 is what the prompt asks
    for, not the larger of 5 and 20. *)
Lemma five_cards_requested_not_twenty :
  requested_cards (VDict [("count", VInt 5)]) = Ok (VInt 5) /\
  spec_requested_cards 5 = 20 /\
  requested_cards (VDict [("count", VInt 5)])
  <> Ok (VInt (spec_requested_cards 5)).
Proof. repeat split. discriminate. Qed.

Lemma quiz_holds_at_most_requested_witness :
  exists quiz_id quiz w',
    create_quiz sample_env
      (sample_event "alice" [("documentId", VStr "doc-1")]
         (VDict [("questionCount", VInt 2)])) sample_world
    = (create_response 201
         (VDict [ ("message", VStr "Quiz created successfully");
                  ("quiz", VDict quiz) ]), w') /\
    quizzes w' !! quiz_id = Some quiz /\
    dict_get "questions" quiz = Some (VList (firstn 2 sample_questions)) /\
    dict_get "questionCount" quiz = Some (VInt 2).
Proof.
  destruct (quiz_holds_at_most_requested sample_env
              (sample_event "alice" [("documentId", VStr "doc-1")]
                 (VDict [("questionCount", VInt 2)]))
              sample_world
              (record_call
                 (VDict [ ("contents",
                           VList [VDict [("parts",
                                          VList [VDict [("text",
                                                         VStr "2 questions The mitochondria is the powerhouse of the cell.")]])]]);
                          ("generationConfig",
                           VDict [ ("temperature", VFloat temperature_0_7);
                                   ("maxOutputTokens", VInt 4000) ]) ])
                 sample_world)
              "doc-1" [("questionCount", VInt 2)]
              "The mitochondria is the powerhouse of the cell." 2
              sample_questions)
    as (quiz_id & quiz & Hrun & Hqs & Hcount & _).
  - reflexivity.
  - reflexivity.
  - reflexivity.
  - lia.
  - exists sample_document. repeat split; done.
  - reflexivity.
  - exists quiz_id, quiz. eexists. split; [exact Hrun|].
    split; [apply lookup_insert_eq|]. split; [exact Hqs | exact Hcount].
Defined.

Lemma flashcards_stored_as_decoded_witness :
  requested_cards (VDict [("count", VInt 5)]) = Ok (VInt 5) /\
  exists flashcard_set w',
    create_flashcards sample_env
      (sample_event "alice" [("documentId", VStr "doc-1")]
         (VDict [("count", VInt 5)])) sample_world
    = (create_response 201
         (VDict [ ("message", VStr "Flashcards created successfully");
                  ("flashcardSet", VDict flashcard_set);
                  ("flashcards", VList sample_questions) ]), w') /\
    dict_get "cardCount" flashcard_set = Some (VInt 3).
Proof.
  destruct (flashcards_stored_as_decoded sample_env
              (sample_event "alice" [("documentId", VStr "doc-1")]
                 (VDict [("count", VInt 5)]))
              sample_world
              (record_call
                 (VDict [ ("contents",
                           VList [VDict [("parts",
                                          VList [VDict [("text",
                                                         VStr "5 cards The mitochondria is the powerhouse of the cell.")]])]]);
                          ("generationConfig",
                           VDict [ ("temperature", VFloat temperature_0_7);
                                   ("maxOutputTokens", VInt 4000) ]) ])
                 sample_world)
              "doc-1" [("count", VInt 5)]
              "The mitochondria is the powerhouse of the cell."
              sample_questions)
    as (Hcount & Hstore).
  - reflexivity.
  - reflexivity.
  - exists sample_document. repeat split; done.
  - split; [exact Hcount|].
    destruct (Hstore eq_refl) as (set_id & flashcard_set & Hrun & _ & Hn).
    exists flashcard_set. eexists. split; [exact Hrun | exact Hn].
Defined.

(** ** Chat history *)

Lemma ltb_asym s t : String.ltb s t = true -> String.ltb t s = false.
Proof.
  unfold String.ltb. rewrite (String.compare_antisym s t).
  destruct (String.compare t s); simpl; congruence.
Qed.

Lemma insert_by_createdAt_perm x l : insert_by_createdAt x l ≡ₚ x :: l.
Proof.
  induction l as [|y l IH]; simpl; [done|].
  destruct (String.ltb (createdAt y) (createdAt x)); [|done].
  rewrite IH. apply Permutation_swap.
Qed.

Lemma sorted_by_createdAt_perm l : sorted_by_createdAt l ≡ₚ l.
Proof.
  induction l as [|x l IH]; simpl; [done|].
  rewrite insert_by_createdAt_perm. by rewrite IH.
Qed.

Lemma insert_by_createdAt_hd y x l :
  not_later y x -> HdRel not_later y l -> HdRel not_later y (insert_by_createdAt x l).
Proof.
  intros Hyx Hl. destruct l as [|z l]; simpl; [by constructor|].
  destruct (String.ltb (createdAt z) (createdAt x)); constructor; [|done].
  by inversion Hl.
Qed.

Lemma insert_by_createdAt_sorted x l :
  Sorted not_later l -> Sorted not_later (insert_by_createdAt x l).
Proof.
  induction 1 as [|y l Hl IH Hhd]; simpl; [by repeat constructor|].
  destruct (String.ltb (createdAt y) (createdAt x)) eqn:Hlt.
  - constructor; [done|]. apply insert_by_createdAt_hd; [|done].
    unfold not_later. by apply ltb_asym.
  - constructor; [by constructor|]. by constructor.
Qed.

Lemma sorted_by_createdAt_sorted l : Sorted not_later (sorted_by_createdAt l).
Proof.
  induction l as [|x l IH]; simpl; [constructor|].
  by apply insert_by_createdAt_sorted.
Qed.

Lemma query_chat_desc_elem table id limit c :
  c ∈ query_chat_desc table id limit -> c ∈ table /\ chat_documentId c = id.
Proof.
  unfold query_chat_desc. intros H.
  assert (In c (rev (List.filter
                       (fun c => String.eqb (chat_documentId c) id) table)))
    as Hin.
  { apply list_elem_of_In. rewrite <- (take_drop limit).
    apply elem_of_app. by left. }
  apply in_rev, List.filter_In in Hin as [H1 H2].
  split; [by apply list_elem_of_In | by apply String.eqb_eq].
Qed.

(** C7. For a caller who owns the document: the history handler
    answers with the turns [get_chat_history_by_document] selects
    under the limit of 20; they are at most 20; each is a turn of
    that document whose stored owner equals the caller; they are
    in ascending order of timestamp; and they are exactly the
    caller's turns among the 20 turns at the end of the document's
    index. *)
Theorem chat_history_window (E : Env) (event : pyval) (w : World)
    (id : string) :
  path_parameter event "documentId" = Ok (VStr id) ->
  owned event w id ->
  let user_id := get_user_id_from_event event in
  let history :=
    get_chat_history_by_document (chat_history w) id user_id
      chat_history_limit in
  get_chat_history E event w
  = (create_response 200
       (VDict [ ("chatHistory",
                 VList (map (fun c => VDict (chat_item c)) history));
                ("count", VInt (Z.of_nat (length history))) ]), w) /\
  (length history <= 20)%nat /\
  Forall (fun c => py_eq (chat_userId c) user_id = true /\
                   chat_documentId c = id /\ c ∈ chat_history w) history /\
  Sorted not_later history /\
  history ≡ₚ
    List.filter (fun c => py_eq (chat_userId c) user_id)
      (firstn 20
         (rev (List.filter (fun c => String.eqb (chat_documentId c) id)
                 (chat_history w)))).
Proof.
  intros Hpath (doc & Hdoc & Hsome & Howner) user_id history.
  assert (history ≡ₚ
          List.filter (fun c => py_eq (chat_userId c) user_id)
            (query_chat_desc (chat_history w) id 20)) as Hperm
    by apply sorted_by_createdAt_perm.
  split; [|split; [|split; [|split]]].
  - unfold get_chat_history, run_handler. repeat step. rewrite Hdoc.
    erewrite bind_val by (by apply check_owner_granted).
    reflexivity.
  - rewrite Hperm.
    etransitivity; [apply List.filter_length_le|].
    unfold query_chat_desc. rewrite length_take. lia.
  - apply Forall_forall. intros c Hc. rewrite Hperm in Hc.
    apply list_elem_of_In, List.filter_In in Hc as [Hc Hu].
    apply list_elem_of_In, query_chat_desc_elem in Hc as [? ?]. done.
  - apply sorted_by_createdAt_sorted.
  - exact Hperm.
Qed.

Lemma chat_history_window_witness :
  get_chat_history_by_document (chat_history sample_world) "doc-1"
    (VStr "alice") chat_history_limit
  = [ sample_turn "chat-a" "alice" "2024-01-01T00:00:01Z";
      sample_turn "chat-c" "alice" "2024-01-01T00:00:03Z" ] /\
  statusCode
    (fst (get_chat_history sample_env
            (sample_event "alice" [("documentId", VStr "doc-1")] VNone)
            sample_world)) = 200.
Proof.
  split; [reflexivity|].
  destruct (chat_history_window sample_env
              (sample_event "alice" [("documentId", VStr "doc-1")] VNone)
              sample_world "doc-1") as [Hrun _].
  - reflexivity.
  - exists sample_document. repeat split; done.
  - rewrite Hrun. reflexivity.
Defined.

(** ** Taking and submitting a quiz *)

Lemma bind_lift_raise {A B} (e : exn) (f : A -> M B) w :
  bind (lift (Raise e)) f w = (Raised e, w).
Proof. reflexivity. Qed.

Lemma bind_lift_ok {A B} (a : A) (f : A -> M B) w :
  bind (lift (Ok a)) f w = f a w.
Proof. reflexivity. Qed.









(** ** Creation followed by submission *)

(** A question in the shape the prompt asks for has no
    [correct_answer] field. *)
Lemma prompt_shaped_no_correct_answer q :
  prompt_shaped q ->
  getitem q "correct_answer" = Raise (KeyError (VStr "correct_answer")).
Proof. intros (? & ? & ? & ? & ? & ? & ? & _ & ->). reflexivity. Qed.

(** Grading a quiz that holds such a question fails at the first one. *)
Lemma prompt_shaped_not_graded q qs answers :
  prompt_shaped q ->
  grade_quiz (VList (q :: qs)) (VDict answers)
  = Raise (KeyError (VStr "correct_answer")).
Proof.
  intros Hq. unfold grade_quiz. cbn [py_len py_iter rbind grade_loop py_get].
  by rewrite (prompt_shaped_no_correct_answer q Hq).
Qed.

(** Whatever the environment: the owner's submission against a stored
    quiz whose questions have the prompt's shape is answered 500, and
    no attempt is stored. *)
Lemma prompt_shaped_quiz_submission_fails (E : Env) (event : pyval)
    (w : World) (id : string) (quiz : dict) (q : pyval) (qs : list pyval)
    (b answers : dict) :
  path_parameter event "quizId" = Ok (VStr id) ->
  parse_body E event = Ok (VDict b) ->
  item_get_or b "answers" (VDict []) = VDict answers ->
  quizzes w !! id = Some quiz ->
  missing (Some quiz) = false ->
  py_eq (item_get quiz "userId") (get_user_id_from_event event) = true ->
  dict_get "questions" quiz = Some (VList (q :: qs)) ->
  prompt_shaped q ->
  submit_quiz E event w
  = (create_response 500
       (error_body (str_exn E (KeyError (VStr "correct_answer")))), w).
Proof.
  intros Hpath Hbody Hanswers Hquiz Hsome Howner Hqs Hq.
  unfold submit_quiz, run_handler. repeat step. rewrite Hquiz.
  erewrite bind_val by (by apply check_owner_granted).
  unfold getitem at 1. rewrite Hqs, bind_lift_ok, Hanswers.
  by rewrite (prompt_shaped_not_graded q qs answers Hq).
Qed.

(** C9. In the sample environment the model follows [QUIZ_PROMPT]:
    the quiz that [create_quiz] stores holds questions of the
    prompt's shape, with the correct index under [correctAnswer];
    the owner's submission against that quiz is answered 500 with
    the key error for [correct_answer], and no grade. *)
Theorem created_quiz_is_not_graded :
  let created :=
    create_quiz sample_env
      (sample_event "alice" [("documentId", VStr "doc-1")]
         (VDict [("questionCount", VInt 5)])) sample_world in
  let submitted :=
    submit_quiz sample_env
      (sample_event "alice" [("quizId", VStr "quiz-0")]
         (VDict [("answers", VDict [("0", VInt 0); ("1", VInt 1)])]))
      (snd created) in
  statusCode (fst created) = 201 /\
  (exists quiz,
     quizzes (snd created) !! "quiz-0" = Some quiz /\
     dict_get "questions" quiz = Some (VList sample_questions)) /\
  Forall prompt_shaped sample_questions /\
  fst submitted = create_response 500 (error_body "'correct_answer'") /\
  quizzes (snd submitted) = quizzes (snd created).
Proof.
  repeat split.
  - eexists. split; reflexivity.
  - repeat constructor; eexists _, _, _, _, _, _, _; (split; [|reflexivity]); lia.
Qed.

(** ** Explaining a concept *)

Lemma stays_lift {A} (r : result A) : stays (lift r).
Proof. intros w r' w'. by destruct r. Qed.

Lemma stays_raise {A} (e : exn) : stays (@raise A e).
Proof. by intros w r w'. Qed.

Lemma stays_ret {A} (a : A) : stays (ret a).
Proof. by intros w r w'. Qed.

Lemma stays_bind {A B} (m : M A) (f : A -> M B) :
  stays m -> (forall a, stays (f a)) -> stays (bind m f).
Proof.
  intros Hm Hf w r w'. unfold bind.
  destruct (m w) as [[a|r0|e] w0] eqn:Hmw; [apply Hf| |done].
  by apply Hm in Hmw.
Qed.

Lemma stays_http_post E url payload : stays (http_post E url payload).
Proof.
  intros w r w'. unfold http_post.
  by destruct (requests_post E (length (model_calls w)) url payload).
Qed.

Lemma stays_call_gpt E prompt system_prompt max_tokens temperature :
  stays (call_gpt E prompt system_prompt max_tokens temperature).
Proof.
  unfold call_gpt. destruct (String.eqb (GEMINI_API_KEY E) "").
  - apply stays_raise.
  - apply stays_bind; [apply stays_http_post|]. intros resp.
    destruct (negb (status_code resp =? 200)).
    + repeat (apply stays_bind; [apply stays_lift|]; intros ?).
      apply stays_raise.
    + apply stays_bind; [apply stays_lift|]. intros ?. apply stays_lift.
Qed.

(** The text of an explain request. *)
Lemma requested_text_read {B} b (f : pyval -> M B) w :
  bind (lift (py_get (VDict b) "text" VNone))
    (fun given =>
       bind (if truthy given then ret given
             else lift (py_get (VDict b) "concept" (VStr ""))) f) w
  = f (requested_text b) w.
Proof.
  rewrite (bind_lift _ _ _ _ (py_get_dict _ _ _)).
  unfold requested_text, py_or, item_get.
  destruct (truthy (item_get_or b "text" VNone)); reflexivity.
Qed.

(** C10. For a request whose body decodes to an object: an empty or
    absent text is answered 400 "Text or concept is required" with
    the world, and so the model, untouched; a non-empty text of more
    than 5000 characters is answered 400 "Text too long", again with
    the world untouched; a non-empty text of at most 5000 characters,
    5000 included, is never answered 400: the answer is 200 or 500,
    and it is 200 with the explanation whenever the level has an
    instruction and the model call returns. *)
Theorem explain_length_boundary (E : Env) (event : pyval) (w : World)
    (b : dict) :
  parse_body E event = Ok (VDict b) ->
  (truthy (requested_text b) = false ->
   explain_concept E event w = (text_required, w)) /\
  (forall t,
     requested_text b = VStr t -> t <> "" ->
     (5000 < len t -> explain_concept E event w = (text_too_long, w)) /\
     (len t <= 5000 ->
      (statusCode (fst (explain_concept E event w)) = 200 \/
       statusCode (fst (explain_concept E event w)) = 500) /\
      forall instruction explanation w1,
        level_instruction E (item_get_or b "level" (VStr "eli5"))
        = Ok instruction ->
        call_gpt E
          (instruction +:+
           String newline
             (String newline
                (EXPLAIN_PROMPT E t
                   (py_str E (item_get_or b "language" (VStr "Vietnamese"))))))
          None 2000 temperature_0_7 w = (Val explanation, w1) ->
        explain_concept E event w
        = (create_response 200
             (VDict [ ("originalText", VStr t);
                      ("level", item_get_or b "level" (VStr "eli5"));
                      ("explanation", explanation) ]), w1))).
Proof.
  intros Hbody. split.
  - intros Hempty. unfold explain_concept, run_handler.
    rewrite (bind_lift _ _ _ _ Hbody), requested_text_read. repeat step.
    by rewrite Hempty.
  - intros t Htext Ht. split.
    + intros Hlong. unfold explain_concept, run_handler.
      rewrite (bind_lift _ _ _ _ Hbody), requested_text_read. repeat step.
      rewrite Htext, (truthy_text t Ht). cbn [negb return_if]. rewrite bind_ret.
      cbn [py_len]. rewrite bind_lift_ok.
      fold (len t). apply Z.ltb_lt in Hlong as ->. reflexivity.
    + intros Hshort. unfold explain_concept, run_handler.
      rewrite (bind_lift _ _ _ _ Hbody), requested_text_read. repeat step.
      rewrite Htext, (truthy_text t Ht). cbn [negb return_if]. rewrite bind_ret.
      cbn [py_len]. rewrite bind_lift_ok. fold (len t).
      assert ((5000 <? len t) = false) as -> by lia.
      cbn [return_if]. rewrite bind_ret. cbn [py_str]. split.
      * destruct (level_instruction E (item_get_or b "level" (VStr "eli5")))
          as [instruction|e]; [rewrite bind_lift_ok | by right].
        match goal with
        | |- context [bind (call_gpt E ?p ?s ?m ?c) ?f w] =>
            destruct (call_gpt E p s m c w) as [[explanation|r|e] w1] eqn:Hcall;
            [ erewrite bind_val by exact Hcall; by left
            | by apply stays_call_gpt in Hcall
            | erewrite bind_raised by exact Hcall; by right ]
        end.
      * intros instruction explanation w1 Hlevel Hcall.
        rewrite Hlevel, bind_lift_ok.
        erewrite bind_val by exact Hcall. reflexivity.
Qed.

Lemma explain_length_boundary_witness :
  len (long_text 5000) = 5000 /\
  statusCode
    (fst (explain_concept sample_env
            (sample_event "alice" [] (VDict [("text", VStr (long_text 5000))]))
            sample_world)) = 200 /\
  explain_concept sample_env
    (sample_event "alice" [] (VDict [("text", VStr (long_text 5001))]))
    sample_world = (text_too_long, sample_world).
Proof.
  split; [reflexivity|]. split.
  - destruct (explain_length_boundary sample_env
                (sample_event "alice" []
                   (VDict [("text", VStr (long_text 5000))]))
                sample_world [("text", VStr (long_text 5000))] eq_refl)
      as [_ Hlen].
    destruct (Hlen (long_text 5000) eq_refl) as [_ Haccept]; [done|].
    destruct (Haccept ltac:(vm_compute; discriminate)) as [_ Hrun].
    erewrite Hrun; [reflexivity|reflexivity|]. vm_compute. reflexivity.
  - destruct (explain_length_boundary sample_env
                (sample_event "alice" []
                   (VDict [("text", VStr (long_text 5001))]))
                sample_world [("text", VStr (long_text 5001))] eq_refl)
      as [_ Hlen].
    destruct (Hlen (long_text 5001) eq_refl) as [Hreject _]; [done|].
    apply Hreject. reflexivity.
Defined.
